(** * Reminder-App: event handlers and login over the MySQL schema

    A shallow embedding of [database/database.go] (the schema), of
    [handlers/handlers.go] (identity resolution and the four event
    handlers) and of [login], [signup], [jwtSigner] and the routes in
    [main.go].

    Modelling conventions.
    - The two tables are lists of rows in insertion order.  A statement is a
      function on the store; [QueryRow(...).Scan] reads the first matching
      row.  Text comparison is exact (a binary collation).
    - A string is a sequence of characters, and the width of a column
      counts them.  The columns are checked as a server in strict SQL mode
      does: a value wider than its column, a duplicate key or a dangling
      foreign key makes the statement fail and leaves the table as it was.
    - Failures of the driver itself (lost connection, timeout) come from the
      environment: [fault env s] says whether the call at site [s] of the
      current request fails, and with which text.
    - [fiber.Ctx] is split into the read-only request and the response being
      built; [Status] and [JSON] overwrite the response, as fiber does.
    - The request body enters through what the handler's decoder makes of
      it; bcrypt and the HS256 signature are parameters of [login] and
      [signup].
    - A Go panic is an outcome of its own. *)

From stdpp Require Import base option list strings gmap.
From Stdlib Require Import ZArith.

Local Open Scope Z_scope.
Local Open Scope string_scope.

(** ** Go values *)

(** [handlers.Events]: the JSON shape of an event. *)
Record Events := mkEvents { Name : string; Date : string; Message : string }.

(** [main.Credentials]. *)
Record Credentials := mkCredentials { Username : string; Password : string }.

(** The dynamic values that are stored in a [fiber.Map] or in
    [jwt.MapClaims] by this program. *)
Inductive any : Type :=
| Str (s : string)
| Int (n : Z)
| Details (e : Events)
| NumericDate (seconds : Z).

Global Instance Events_eq_dec : EqDecision Events.
Proof. solve_decision. Defined.

Global Instance any_eq_dec : EqDecision any.
Proof. solve_decision. Defined.

(** Go's [error] values that reach the handlers: the sentinel
    [sql.ErrNoRows], compared by identity, and everything else. *)
Inductive error : Type :=
| ErrNoRows
| ErrOther (msg : string).

Definition Error (e : error) : string :=
  match e with
  | ErrNoRows => "sql: no rows in result set"
  | ErrOther msg => msg
  end.

(** A handler either returns or panics. *)
Inductive outcome (A : Type) : Type :=
| Panic (why : string)
| Return (a : A).
Arguments Panic {A} why.
Arguments Return {A} a.

Global Instance outcome_bind : MBind outcome :=
  λ A B k m, match m with Panic why => Panic why | Return a => k a end.

(** ** The store: [database.Connect]'s schema *)

Module database.

(** users(id PRIMARY KEY, username UNIQUE, password). *)
Record User := mkUser { u_id : Z; u_username : string; u_password : string }.

(** events(id PRIMARY KEY, name, message, date, user_id REFERENCES users,
    UNIQUE (name, user_id)). *)
Record Event := mkEvent {
  ev_id : Z;
  ev_name : string;
  ev_message : string;
  ev_date : string;
  ev_user_id : Z
}.

Record DB := mkDB {
  users : list User;
  events : list Event;
  auto_increment : Z   (* next id of the events table *)
}.

Global Instance User_eq_dec : EqDecision User.
Proof. solve_decision. Defined.

Global Instance Event_eq_dec : EqDecision Event.
Proof. solve_decision. Defined.

(** The store with its events table replaced. *)
Definition with_events (db : DB) (rows : list Event) : DB :=
  {| users := users db; events := rows;
     auto_increment := auto_increment db |}.

(** [WHERE name = ? and user_id = ?]. *)
Definition scoped (n : string) (uid : Z) (r : Event) : Prop :=
  ev_name r = n ∧ ev_user_id r = uid.

Global Instance scoped_dec n uid r : Decision (scoped n uid r).
Proof. unfold scoped. apply _. Defined.

(** VARCHAR(255) for name and date, TEXT for message. *)
Definition fits (n m d : string) : Prop :=
  (Z.of_nat (String.length n) ≤ 255
   ∧ Z.of_nat (String.length d) ≤ 255
   ∧ Z.of_nat (String.length m) ≤ 65535)%Z.

Global Instance fits_dec n m d : Decision (fits n m d).
Proof. unfold fits. apply _. Defined.

Definition duplicate_entry : error := ErrOther "Error 1062 (23000): Duplicate entry".
Definition data_too_long : error := ErrOther "Error 1406 (22001): Data too long for column".
Definition no_referenced_row : error :=
  ErrOther "Error 1452 (23000): Cannot add or update a child row: a foreign key constraint fails".

(** SELECT id FROM users WHERE username = ? *)
Definition select_user_id (db : DB) (username : string) : error + Z :=
  match list_find (λ u, u_username u = username) (users db) with
  | Some (_, u) => inr (u_id u)
  | None => inl ErrNoRows
  end.

(** SELECT id, password FROM users WHERE username = ? *)
Definition select_user_password (db : DB) (username : string)
  : error + (Z * string) :=
  match list_find (λ u, u_username u = username) (users db) with
  | Some (_, u) => inr (u_id u, u_password u)
  | None => inl ErrNoRows
  end.

(** SELECT id, name, message, date FROM events WHERE name = ? and user_id = ? *)
Definition select_event (db : DB) (n : string) (uid : Z)
  : error + (Z * Events) :=
  match list_find (scoped n uid) (events db) with
  | Some (_, r) =>
      inr (ev_id r,
           {| Name := ev_name r; Date := ev_date r; Message := ev_message r |})
  | None => inl ErrNoRows
  end.

(** INSERT INTO events (name, message, date, user_id) VALUES(?,?,?,?) *)
Definition insert_event (db : DB) (n m d : string) (uid : Z) : error + DB :=
  if decide (fits n m d) then
    if decide (Exists (scoped n uid) (events db)) then inl duplicate_entry
    else if decide (Exists (λ u, u_id u = uid) (users db)) then
      inr {| users := users db;
             events := events db ++ [mkEvent (auto_increment db) n m d uid];
             auto_increment := auto_increment db + 1 |}
    else inl no_referenced_row
  else inl data_too_long.

(** What [SET name = ?, message = ?, date = ?] does to one row. *)
Definition set_fields (n m d : string) (r : Event) : Event :=
  {| ev_id := ev_id r; ev_name := n; ev_message := m; ev_date := d;
     ev_user_id := ev_user_id r |}.

(** The row [r] stands in the way of giving the rows with id [id] the
    name [n]: it keeps its own key and some row with id [id] would get
    the same one. *)
Definition clashes (db : DB) (n : string) (id : Z) (r : Event) : Prop :=
  ev_id r ≠ id ∧ ev_name r = n
  ∧ Exists (λ r', ev_id r' = id ∧ ev_user_id r' = ev_user_id r) (events db).

Global Instance clashes_dec db n id r : Decision (clashes db n id r).
Proof. unfold clashes. apply _. Defined.

(** UPDATE events SET name = ?, message = ?, date = ? WHERE id = ? *)
Definition update_event (db : DB) (n m d : string) (id : Z) : error + DB :=
  if decide (Exists (λ r, ev_id r = id) (events db)) then
    if decide (fits n m d) then
      if decide (Exists (clashes db n id) (events db)) then inl duplicate_entry
      else
        inr (with_events db
               ((λ r, if decide (ev_id r = id)
                      then set_fields n m d r else r) <$> events db))
    else inl data_too_long
  else inr db.

(** DELETE FROM events WHERE name = ? and user_id = ?, with the number of
    rows it removed. *)
Definition delete_event (db : DB) (n : string) (uid : Z) : Z * DB :=
  (Z.of_nat (length (filter (scoped n uid) (events db))),
   with_events db (filter (λ r, ¬ scoped n uid r) (events db))).

(** The constraints of the schema, as an invariant of the store. *)
Record wf (db : DB) : Prop := mkWf {
  wf_user_pk : NoDup (u_id <$> users db);
  wf_user_ids : Forall (λ u, (1 ≤ u_id u)%Z) (users db);
  wf_username_unique : NoDup (u_username <$> users db);
  wf_event_pk : NoDup (ev_id <$> events db);
  wf_event_ids : Forall (λ r, (ev_id r < auto_increment db)%Z) (events db);
  wf_event_unique : NoDup ((λ r, (ev_name r, ev_user_id r)) <$> events db);
  wf_event_fits :
    Forall (λ r, fits (ev_name r) (ev_message r) (ev_date r)) (events db);
  wf_event_owner :
    Forall (λ r, Exists (λ u, u_id u = ev_user_id r) (users db)) (events db)
}.

(** The store together with the AUTO_INCREMENT counter of the users
    table. *)
Record Server := mkServer {
  tables : DB;
  users_auto_increment : Z   (* next id of the users table *)
}.

(** VARCHAR(255) for username and password. *)
Definition fits_user (username password : string) : Prop :=
  (Z.of_nat (String.length username) ≤ 255
   ∧ Z.of_nat (String.length password) ≤ 255)%Z.

Global Instance fits_user_dec username password :
  Decision (fits_user username password).
Proof. unfold fits_user. apply _. Defined.

(** INSERT INTO users (username, password) VALUES (?, ?) *)
Definition insert_user (s : Server) (username password : string)
  : error + Server :=
  if decide (fits_user username password) then
    if decide (Exists (λ u, u_username u = username) (users (tables s)))
    then inl duplicate_entry
    else
      inr {| tables :=
               {| users := users (tables s)
                           ++ [mkUser (users_auto_increment s) username password];
                  events := events (tables s);
                  auto_increment := auto_increment (tables s) |};
             users_auto_increment := users_auto_increment s + 1 |}
  else inl data_too_long.


End database.
Import database.

(** ** The environment of one request *)

(** The places where a handler calls into [database/sql]. *)
Inductive site : Type :=
| SiteUserID         (* the query of getUserID *)
| SiteQuery          (* QueryRow(...).Scan of the handler *)
| SitePrepare        (* db.Prepare *)
| SiteExec           (* stmt.Exec *)
| SiteRowsAffected.  (* result.RowsAffected *)

Record Env := mkEnv {
  fault : site → option string;   (* a driver failure at that call *)
  now : Z                         (* time.Now(), in seconds *)
}.

(** A statement that the driver fails to deliver is not run. *)
Definition call {A : Type} (env : Env) (s : site) (run : error + A) : error + A :=
  match fault env s with
  | Some msg => inl (ErrOther msg)
  | None => run
  end.

Definition healthy (env : Env) : Prop := ∀ s, fault env s = None.

(** ** fiber: request and response *)

(** [token.Claims], as the type assertion to [jwt.MapClaims] sees it. *)
Inductive Claims : Type :=
| MapClaims (m : gmap string any)
| OtherClaims.

(** [c.Locals("user")], as the type assertion to [*jwt.Token] sees it. *)
Inductive Local : Type :=
| NoToken
| Token (claims : Claims).

(** The request, with its body as the handler's decoder delivers it. *)
Record Request (B : Type) := mkRequest {
  Body : B;
  Params_name : string;      (* c.Params("name") *)
  Locals_user : Local
}.
Arguments mkRequest {B} _ _ _.
Arguments Body {B} _.
Arguments Params_name {B} _.
Arguments Locals_user {B} _.

Record Response := mkResponse {
  StatusCode : Z;
  Payload : gmap string any   (* the fiber.Map last written by c.JSON *)
}.

(** The response of a context no handler has written to yet. *)
Definition fresh : Response := {| StatusCode := 200; Payload := ∅ |}.

Definition Status (code : Z) (w : Response) : Response :=
  {| StatusCode := code; Payload := Payload w |}.

Definition JSON (m : gmap string any) (w : Response) : Response :=
  {| StatusCode := StatusCode w; Payload := m |}.

(** What [json.Unmarshal(c.Body(), &event)] leaves in [event], a pointer to
    [Events]: an error, or the pointer, which the JSON literal null sets to
    nil. *)
Inductive decoded : Type :=
| DecodeError (msg : string)
| Decoded (event : option Events).

(** ** package handlers *)

Module handlers.

Definition error_map (msg : string) : gmap string any :=
  {[ "status" := Str "error"; "message" := Str msg ]}.

Definition getUserID {B} (env : Env) (c : Request B) (db : DB) : outcome Z :=
  match Locals_user c with
  | Token (MapClaims claims) =>
      match claims !! "username" with
      | Some (Str username) =>
          match call env SiteUserID (select_user_id db username) with
          | inl _ => Return 0
          | inr userID => Return userID
          end
      | _ => Panic "interface conversion: interface {} is not string"
      end
  | Token OtherClaims => Return 0
  | NoToken => Return 0
  end.

Definition nil_dereference : string :=
  "runtime error: invalid memory address or nil pointer dereference".

Definition CreateEvent (env : Env) (c : Request decoded) (db : DB)
  : outcome (Response * DB) :=
  match Body c with
  | DecodeError msg => Return (JSON (error_map msg) (Status 400 fresh), db)
  | Decoded event =>
      userID ← getUserID env c db;
      match fault env SitePrepare with
      | Some msg => Return (JSON (error_map msg) (Status 500 fresh), db)
      | None =>
          match event with
          | None => Panic nil_dereference
          | Some event =>
              match call env SiteExec
                      (insert_event db (Name event) (Message event)
                         (Date event) userID) with
              | inl err =>
                  Return (JSON (error_map (Error err)) (Status 500 fresh), db)
              | inr db' =>
                  Return (JSON {[ "status" := Str "created";
                                  "event_name" := Str (Name event);
                                  "message" := Str "Event created successfully" ]}
                            (Status 200 fresh), db')
              end
          end
      end
  end.

(** The three conditional assignments of UpdateEvent. *)
Definition merge (oldEvent newEvent : Events) : Events :=
  let oldEvent :=
    if decide (Name newEvent ≠ "")
    then {| Name := Name newEvent; Date := Date oldEvent;
            Message := Message oldEvent |}
    else oldEvent in
  let oldEvent :=
    if decide (Message newEvent ≠ "")
    then {| Name := Name oldEvent; Date := Date oldEvent;
            Message := Message newEvent |}
    else oldEvent in
  if decide (Date newEvent ≠ "")
  then {| Name := Name oldEvent; Date := Date newEvent;
          Message := Message oldEvent |}
  else oldEvent.

Definition UpdateEvent (env : Env) (c : Request decoded) (db : DB)
  : outcome (Response * DB) :=
  let eventName := Params_name c in
  match Body c with
  | DecodeError msg => Return (JSON (error_map msg) (Status 400 fresh), db)
  | Decoded newEvent =>
      userID ← getUserID env c db;
      match call env SiteQuery (select_event db eventName userID) with
      | inl ErrNoRows =>
          Return (JSON (error_map "Record not found") (Status 404 fresh), db)
      | inl err =>
          Return (JSON (error_map (Error err)) (Status 500 fresh), db)
      | inr (id, oldEvent) =>
          match newEvent with
          | None => Panic nil_dereference
          | Some newEvent =>
              let oldEvent := merge oldEvent newEvent in
              match fault env SitePrepare with
              | Some msg =>
                  Return (JSON (error_map msg) (Status 500 fresh), db)
              | None =>
                  match call env SiteExec
                          (update_event db (Name oldEvent) (Message oldEvent)
                             (Date oldEvent) id) with
                  | inl err =>
                      Return (JSON (error_map (Error err)) (Status 500 fresh), db)
                  | inr db' =>
                      Return (JSON {[ "status" := Str "updated";
                                      "event_id" := Int id;
                                      "message" := Str "Event updated successfully" ]}
                                (Status 200 fresh), db')
                  end
              end
          end
      end
  end.

Definition GetEvent {B} (env : Env) (c : Request B) (db : DB)
  : outcome (Response * DB) :=
  let eventName := Params_name c in
  userID ← getUserID env c db;
  match call env SiteQuery (select_event db eventName userID) with
  | inl err =>
      (* the 404 answer is written, not returned *)
      let w :=
        match err with
        | ErrNoRows => JSON (error_map (Error err)) (Status 404 fresh)
        | ErrOther _ => fresh
        end in
      Return (JSON (error_map (Error err)) (Status 500 w), db)
  | inr (id, event) =>
      Return (JSON {[ "status" := Str "fetched";
                      "event_id" := Int id;
                      "details" := Details event;
                      "message" := Str "Event fetched successfully" ]}
                (Status 200 fresh), db)
  end.

Definition DeleteEvent {B} (env : Env) (c : Request B) (db : DB)
  : outcome (Response * DB) :=
  userID ← getUserID env c db;
  let eventName := Params_name c in
  match fault env SitePrepare with
  | Some msg => Return (JSON (error_map msg) (Status 500 fresh), db)
  | None =>
      match call env SiteExec (inr (delete_event db eventName userID)) with
      | inl err => Return (JSON (error_map (Error err)) (Status 500 fresh), db)
      | inr (rowsAffected, db') =>
          match fault env SiteRowsAffected with
          | Some msg => Return (JSON (error_map msg) (Status 500 fresh), db')
          | None =>
              if decide (rowsAffected = 0) then
                Return (JSON (error_map "Record not found") (Status 404 fresh), db')
              else
                Return (JSON {[ "status" := Str "deleted";
                                "event_name" := Str eventName;
                                "message" := Str "Event deleted successfully" ]}
                          (Status 200 fresh), db')
          end
      end
  end.

End handlers.
Import handlers.

(** ** package main: login and the token it issues *)

Module main.

Section Auth.

(** [bcrypt.CompareHashAndPassword hash password], [None] for nil. *)
Variable CompareHashAndPassword : string → string → option string.
(** [token.SignedString key] on an HS256 token with the given claims. *)
Variable SignedString : gmap string any → string → string + string.
Variable secretKey : string.

(** time.Hour * 24 * 365, in seconds. *)
Definition one_year : Z := 3600 * 24 * 365.

Definition jwtSigner (env : Env) (w : Response) (username : string)
  : Response :=
  let claims : gmap string any :=
    {[ "username" := Str username;
       "exp" := NumericDate (now env + one_year) ]} in
  match SignedString claims secretKey with
  | inl _ => JSON {[ "error" := Str "Failed to generate token" ]} (Status 500 w)
  | inr signedToken => JSON {[ "token" := Str signedToken ]} w
  end.

(** The body is what [c.BodyParser(&creds)] delivers. *)
Definition login (env : Env) (c : Request (string + Credentials)) (db : DB)
  : Response :=
  match Body c with
  | inl _ => JSON {[ "error" := Str "Invalid request" ]} (Status 400 fresh)
  | inr creds =>
      match call env SiteQuery (select_user_password db (Username creds)) with
      | inl ErrNoRows =>
          JSON (error_map "No user with the given credentials exists")
            (Status 400 fresh)
      | inl err => JSON (error_map (Error err)) (Status 500 fresh)
      | inr (userID, storedPassword) =>
          match CompareHashAndPassword storedPassword (Password creds) with
          | Some _ =>
              JSON {[ "error" := Str "Invalid username or password" ]}
                (Status 401 fresh)
          | None => jwtSigner env fresh (Username creds)
          end
      end
  end.

End Auth.

Section Registration.

(** [bcrypt.GenerateFromPassword password DefaultCost], with the salt that
    it draws. *)
Variable GenerateFromPassword : string → string → string + string.
Variable SignedString : gmap string any → string → string + string.
Variable secretKey : string.

Definition signup (salt : string) (env : Env)
    (c : Request (string + Credentials)) (s : Server) : Response * Server :=
  match Body c with
  | inl _ => (JSON {[ "error" := Str "Invalid request" ]} (Status 400 fresh), s)
  | inr creds =>
      match GenerateFromPassword salt (Password creds) with
      | inl err => (JSON (error_map err) (Status 500 fresh), s)
      | inr hashedPassword =>
          match fault env SitePrepare with
          | Some msg => (JSON {[ "error" := Str msg ]} (Status 500 fresh), s)
          | None =>
              match call env SiteExec
                      (insert_user s (Username creds) hashedPassword) with
              | inl err => (JSON (error_map (Error err)) (Status 500 fresh), s)
              | inr s' =>
                  (jwtSigner SignedString secretKey env fresh (Username creds), s')
              end
          end
      end
  end.

End Registration.

(** The routes of [main]: what a request is served by. *)
Inductive Route : Type :=
| PostSignup (salt : string) (c : Request (string + Credentials))
| PostLogin (c : Request (string + Credentials))
| PostEvent (c : Request decoded)
| GetEventByName (c : Request unit)
| PutEvent (c : Request decoded)
| DeleteEventByName (c : Request unit).

(** The store that a handler leaves; a panic leaves it as it was. *)
Definition store_after (o : outcome (Response * DB)) (db : DB) : DB :=
  match o with
  | Return (_, db') => db'
  | Panic _ => db
  end.

Definition with_tables (s : Server) (db : DB) : Server :=
  {| tables := db; users_auto_increment := users_auto_increment s |}.

Section Serve.

Variable GenerateFromPassword : string → string → string + string.
Variable SignedString : gmap string any → string → string + string.
Variable secretKey : string.

(** The store after one request. *)
Definition serve (s : Server) (request : Env * Route) : Server :=
  let env := request.1 in
  match request.2 with
  | PostSignup salt c =>
      (signup GenerateFromPassword SignedString secretKey salt env c s).2
  | PostLogin c => s
  | PostEvent c => with_tables s (store_after (CreateEvent env c (tables s)) (tables s))
  | GetEventByName c =>
      with_tables s (store_after (GetEvent env c (tables s)) (tables s))
  | PutEvent c => with_tables s (store_after (UpdateEvent env c (tables s)) (tables s))
  | DeleteEventByName c =>
      with_tables s (store_after (DeleteEvent env c (tables s)) (tables s))
  end.

(** The store after a sequence of requests. *)
Definition run (s : Server) (requests : list (Env * Route)) : Server :=
  foldl serve s requests.

End Serve.

End main.
Import main.

(** ** Notions used in the statements *)

(** The [Events] value that [Scan] fills from a row. *)
Definition scanned (r : Event) : Events :=
  {| Name := ev_name r; Date := ev_date r; Message := ev_message r |}.

(** The request carries a token with a string [username] claim, as every
    token issued by [jwtSigner] does. *)
Definition issued_to {B} (c : Request B) (username : string) : Prop :=
  ∃ claims, Locals_user c = Token (MapClaims claims)
            ∧ claims !! "username" = Some (Str username).

(** When the store accepts UPDATE ... WHERE id = [id]: the values fit their
    columns and no other row holds the key the row would get. *)
Definition accepts (db : DB) (n m d : string) (id : Z) : Prop :=
  fits n m d ∧ ¬ Exists (clashes db n id) (events db).

Global Instance accepts_dec db n m d id : Decision (accepts db n m d id).
Proof. unfold accepts. apply _. Defined.

(** The claims [jwtSigner] signs for a username. *)
Definition claims_for (env : Env) (username : string) : gmap string any :=
  {[ "username" := Str username; "exp" := NumericDate (now env + one_year) ]}.

(** The answers of the event handlers. *)
Definition failed (code : Z) (msg : string) : Response :=
  {| StatusCode := code; Payload := error_map msg |}.

Definition created (name : string) : Response :=
  {| StatusCode := 200;
     Payload := {[ "status" := Str "created";
                   "event_name" := Str name;
                   "message" := Str "Event created successfully" ]} |}.

Definition updated (id : Z) : Response :=
  {| StatusCode := 200;
     Payload := {[ "status" := Str "updated";
                   "event_id" := Int id;
                   "message" := Str "Event updated successfully" ]} |}.

Definition fetched (id : Z) (e : Events) : Response :=
  {| StatusCode := 200;
     Payload := {[ "status" := Str "fetched";
                   "event_id" := Int id;
                   "details" := Details e;
                   "message" := Str "Event fetched successfully" ]} |}.

Definition deleted (name : string) : Response :=
  {| StatusCode := 200;
     Payload := {[ "status" := Str "deleted";
                   "event_name" := Str name;
                   "message" := Str "Event deleted successfully" ]} |}.

(** The response envelope: a [status] among the five words and a
    [message]. *)
Definition statuses : list string :=
  ["created"; "updated"; "fetched"; "deleted"; "error"].

Definition envelope (w : Response) : Prop :=
  (∃ s, Payload w !! "status" = Some (Str s) ∧ s ∈ statuses)
  ∧ is_Some (Payload w !! "message").

(** The constraints of the schema with the users counter: the counter
    starts at 1 and every user id lies below it. *)
Definition wf_server (s : Server) : Prop :=
  wf (tables s)
  ∧ (1 ≤ users_auto_increment s)%Z
  ∧ Forall (λ u, (u_id u < users_auto_increment s)%Z) (users (tables s)).

(** The store after the INSERT of a user. *)
Definition registered (s : Server) (username hash : string) : Server :=
  {| tables :=
       {| users := users (tables s)
                   ++ [mkUser (users_auto_increment s) username hash];
          events := events (tables s);
          auto_increment := auto_increment (tables s) |};
     users_auto_increment := users_auto_increment s + 1 |}.

(** The row belongs to someone other than the resolved identity. *)
Definition foreign (uid : Z) (r : Event) : Prop := ev_user_id r ≠ uid.

Global Instance foreign_dec uid r : Decision (foreign uid r).
Proof. unfold foreign. apply _. Defined.

(** The handler returned, and what it returned is in the envelope. *)
Definition answers_in_envelope (o : outcome (Response * DB)) : Prop :=
  ∃ w db', o = Return (w, db') ∧ envelope w.

(** The response carries the event [e]: as a nested object under some key,
    or as the three fields [name], [date] and [message]. *)
Definition reports_event (w : Response) (e : Events) : Prop :=
  (∃ k, Payload w !! k = Some (Details e))
  ∨ (Payload w !! "name" = Some (Str (Name e))
     ∧ Payload w !! "date" = Some (Str (Date e))
     ∧ Payload w !! "message" = Some (Str (Message e))).

(** ** Sample data *)

Module Sample.

Definition alice : User := mkUser 1 "alice" "$2a$10$alice".
Definition bob : User := mkUser 2 "bob" "$2a$10$bob".

Definition meeting : Event := mkEvent 1 "Meeting" "sync" "2025-01-15" 1.

(** Two users, no event. *)
Definition db0 : DB := mkDB [alice; bob] [] 1.
(** Two users, alice owns "Meeting". *)
Definition db1 : DB := mkDB [alice; bob] [meeting] 2.

Definition env0 : Env := mkEnv (λ _, None) 1700000000.

(** A token as [jwtSigner] issues it. *)
Definition token_of (username : string) : Local :=
  Token (MapClaims {[ "username" := Str username;
                      "exp" := NumericDate 1731536000 ]}).

(** A validly signed token that carries no username. *)
Definition token_without_username : Local :=
  Token (MapClaims {[ "exp" := NumericDate 1731536000 ]}).

Definition request {B} (body : B) (name : string) (user : string) : Request B :=
  mkRequest body name (token_of user).

(** Stand-ins for bcrypt and for the HS256 signature. *)
Definition compare (hash password : string) : option string :=
  if decide (hash = "$2a$10$" +:+ password) then None
  else Some "crypto/bcrypt: hashedPassword is not the hash of the given password".

Definition sign (claims : gmap string any) (key : string) : string + string :=
  match claims !! "username" with
  | Some (Str u) => inr ("header." +:+ u +:+ "." +:+ key)
  | _ => inl "json: unsupported value"
  end.

Definition generate (salt password : string) : string + string :=
  if decide (Z.of_nat (String.length password) ≤ 72)%Z
  then inr ("$2a$10$" +:+ password)
  else inl "bcrypt: password length exceeds 72 bytes".

(** A signup or login request with parsed credentials. *)
Definition credentials (username password : string)
  : Request (string + Credentials) :=
  mkRequest (inr (mkCredentials username password)) "" NoToken.

(** The store [db1] with its users counter. *)
Definition server1 : Server := mkServer db1 3.

End Sample.

(** ** Proof steps shared by the handlers *)

(** The envelope of a written-out answer: look the two fields up. *)
Ltac in_envelope :=
  split;
  [ eexists; split; [reflexivity|unfold statuses; set_solver]
  | eexists; reflexivity ].

(** Read the answer off a branch of a handler. *)
Ltac answer_in_envelope :=
  lazymatch goal with
  | |- Panic _ = Return _ → _ => discriminate
  | |- Return (_, _) = Return (_, _) → envelope _ =>
      intros [= <- <-]; in_envelope
  end.

(** ** Facts about the statements *)

Section Statements.

Implicit Types (db : DB) (n m d : string) (uid id : Z) (r : Event).



Lemma select_event_absent db n uid :
  select_event db n uid = inl ErrNoRows ↔ ¬ Exists (scoped n uid) (events db).
Proof.
  unfold select_event.
  destruct (list_find _ _) as [[i r]|] eqn:Hfind; split; try done.
  - intros Hno. exfalso. apply Hno.
    apply list_find_Some in Hfind as (Hi & Hr & _).
    apply Exists_exists. exists r. split; [by eapply list_elem_of_lookup_2|done].
  - intros _ (r & Hin & Hr)%Exists_exists.
    apply list_find_None in Hfind.
    by eapply Forall_forall in Hfind.
Qed.

Lemma select_event_error db n uid err :
  select_event db n uid = inl err → err = ErrNoRows.
Proof.
  unfold select_event. destruct (list_find _ _) as [[? ?]|]; congruence.
Qed.


End Statements.

(** ** Identity resolution *)

Lemma getUserID_issued {B} env (c : Request B) db username :
  issued_to c username →
  getUserID env c db =
    Return (match call env SiteUserID (select_user_id db username) with
            | inl _ => 0
            | inr userID => userID
            end).
Proof.
  intros (claims & Hlocal & Hclaim). unfold getUserID.
  rewrite Hlocal, Hclaim. by destruct (call _ _ _).
Qed.

Lemma getUserID_known {B} env (c : Request B) db username uid :
  issued_to c username →
  fault env SiteUserID = None →
  select_user_id db username = inr uid →
  getUserID env c db = Return uid.
Proof.
  intros Hc Hf Hsel. rewrite (getUserID_issued _ _ _ _ Hc).
  unfold call. by rewrite Hf, Hsel.
Qed.

Lemma getUserID_unknown {B} env (c : Request B) db username :
  issued_to c username →
  select_user_id db username = inl ErrNoRows →
  getUserID env c db = Return 0.
Proof.
  intros Hc Hsel. rewrite (getUserID_issued _ _ _ _ Hc).
  unfold call. rewrite Hsel. by destruct (fault _ _).
Qed.

(** Without a token, or with claims of another type, the sentinel. *)
Lemma getUserID_no_token {B} env (c : Request B) db :
  Locals_user c = NoToken ∨ Locals_user c = Token OtherClaims →
  getUserID env c db = Return 0.
Proof. unfold getUserID. by intros [-> | ->]. Qed.

(** The only way not to return: a username claim that is absent or not a
    string. *)
Lemma getUserID_panics_iff {B} env (c : Request B) db :
  (∃ why, getUserID env c db = Panic why) ↔
  ∃ claims, Locals_user c = Token (MapClaims claims)
            ∧ ∀ username, claims !! "username" ≠ Some (Str username).
Proof.
  unfold getUserID. split.
  - intros [why Hp]. destruct (Locals_user c) as [|[claims|]]; try done.
    exists claims. split; [done|]. intros username Hu. rewrite Hu in Hp.
    by destruct (call _ _ _).
  - intros (claims & -> & Hno).
    destruct (claims !! "username") as [[u| | |]|] eqn:Hu; eauto.
    by destruct (Hno u).
Qed.

(** C2, at a failing input: a verified token whose claims hold no
    [username] (or hold one that is not a string) makes the identity
    resolver panic on its unchecked type assertion; it does not return the
    sentinel 0. *)
Theorem getUserID_panics_without_username_claim :
  getUserID Sample.env0 (mkRequest () "Meeting" Sample.token_without_username)
    Sample.db1
  = Panic "interface conversion: interface {} is not string"
  ∧ getUserID Sample.env0
      (mkRequest () "Meeting" (Token (MapClaims {[ "username" := Int 42 ]})))
      Sample.db1
    = Panic "interface conversion: interface {} is not string".
Proof. split; reflexivity. Qed.

(** ** GetEvent *)

Lemma GetEvent_no_row {B} env (c : Request B) db uid :
  getUserID env c db = Return uid →
  fault env SiteQuery = None →
  ¬ Exists (scoped (Params_name c) uid) (events db) →
  GetEvent env c db =
    Return ({| StatusCode := 500;
               Payload := error_map "sql: no rows in result set" |}, db).
Proof.
  intros Huid Hf Hno%select_event_absent. unfold GetEvent.
  rewrite Huid. simpl. unfold call. by rewrite Hf, Hno.
Qed.

Lemma GetEvent_row {B} env (c : Request B) db uid id e :
  getUserID env c db = Return uid →
  fault env SiteQuery = None →
  select_event db (Params_name c) uid = inr (id, e) →
  GetEvent env c db =
    Return ({| StatusCode := 200;
               Payload := {[ "status" := Str "fetched";
                             "event_id" := Int id;
                             "details" := Details e;
                             "message" := Str "Event fetched successfully" ]} |},
            db).
Proof.
  intros Huid Hf Hsel. unfold GetEvent.
  rewrite Huid. simpl. unfold call. by rewrite Hf, Hsel.
Qed.


(** C1, at a failing input: when no event row matches (name, userID),
    GetEvent writes the 404 answer but does not return it, and the request
    ends with status 500 and the text of sql.ErrNoRows; so does a lookup
    under the sentinel owner id 0. *)
Theorem GetEvent_missing_row_is_500 :
  GetEvent Sample.env0 (Sample.request () "Dentist" "alice") Sample.db1
  = Return ({| StatusCode := 500;
               Payload := {[ "status" := Str "error";
                             "message" := Str "sql: no rows in result set" ]} |},
            Sample.db1)
  ∧ getUserID Sample.env0 (mkRequest () "Meeting" NoToken) Sample.db1 = Return 0
  ∧ GetEvent Sample.env0 (mkRequest () "Meeting" NoToken) Sample.db1
    = Return ({| StatusCode := 500;
                 Payload := {[ "status" := Str "error";
                               "message" := Str "sql: no rows in result set" ]} |},
              Sample.db1).
Proof. split_and!; reflexivity. Qed.

(** ** UPDATE by primary key *)

Section Update.

Implicit Types (db : DB) (n m d : string) (uid id : Z) (r : Event).

Lemma pk_lookup db i j r r' :
  NoDup (ev_id <$> events db) →
  events db !! i = Some r → events db !! j = Some r' →
  ev_id r = ev_id r' → i = j.
Proof.
  intros Hpk Hi Hj Hid.
  eapply NoDup_lookup; [exact Hpk| |].
  - rewrite list_lookup_fmap, Hi. reflexivity.
  - rewrite list_lookup_fmap, Hj. simpl. by rewrite Hid.
Qed.

(** Under the primary key, the rows changed by the UPDATE are one row. *)
Lemma update_rows db n m d i r :
  NoDup (ev_id <$> events db) →
  events db !! i = Some r →
  (λ r', if decide (ev_id r' = ev_id r) then set_fields n m d r' else r')
    <$> events db
  = <[i := set_fields n m d r]> (events db).
Proof.
  intros Hpk Hi. apply list_eq. intros j.
  rewrite list_lookup_fmap.
  destruct (decide (i = j)) as [<-|Hne].
  - rewrite list_lookup_insert_eq by by eapply lookup_lt_Some.
    rewrite Hi. simpl. by rewrite decide_True.
  - rewrite list_lookup_insert_ne by done.
    destruct (events db !! j) as [r'|] eqn:Hj; [|done]. simpl.
    rewrite decide_False; [done|].
    intros Hid. apply Hne. by eapply pk_lookup.
Qed.

Lemma update_event_accepted db n m d i r :
  NoDup (ev_id <$> events db) →
  events db !! i = Some r →
  accepts db n m d (ev_id r) →
  update_event db n m d (ev_id r)
  = inr (with_events db (<[i := set_fields n m d r]> (events db))).
Proof.
  intros Hpk Hi [Hfits Hclash]. unfold update_event.
  rewrite decide_True.
  2:{ apply Exists_exists. exists r. split; [by eapply list_elem_of_lookup_2|done]. }
  rewrite decide_True, decide_False by done.
  by rewrite (update_rows _ _ _ _ _ _ Hpk Hi).
Qed.


(** In a well-formed table, another row clashes exactly when it belongs
    to the same owner and already has the name. *)
Lemma clashes_owner db n i r r' :
  NoDup (ev_id <$> events db) →
  events db !! i = Some r →
  r' ∈ events db →
  clashes db n (ev_id r) r' ↔
  ev_id r' ≠ ev_id r ∧ ev_name r' = n ∧ ev_user_id r' = ev_user_id r.
Proof.
  intros Hpk Hi Hin'. unfold clashes. split.
  - intros (Hne & Hn & (r0 & Hin0 & Hid0 & Howner)%Exists_exists).
    split_and!; try done.
    apply list_elem_of_lookup in Hin0 as [j Hj].
    assert (j = i) as -> by by eapply pk_lookup.
    congruence.
  - intros (Hne & Hn & Howner). split_and!; try done.
    apply Exists_exists. exists r.
    split; [by eapply list_elem_of_lookup_2|done].
Qed.


End Update.

(** ** UpdateEvent *)

Section UpdateEvent.

Implicit Types (db : DB) (uid id : Z) (r : Event) (patch : Events).


Lemma merge_empty oldEvent patch :
  Name patch = "" → Message patch = "" → Date patch = "" →
  merge oldEvent patch = oldEvent.
Proof. intros Hn Hm Hd. unfold merge. by rewrite Hn, Hm, Hd. Qed.

(** Under UNIQUE (name, user_id) a scoped row is the one the SELECT reads. *)
Lemma find_scoped db n uid i r :
  NoDup ((λ r, (ev_name r, ev_user_id r)) <$> events db) →
  events db !! i = Some r → scoped n uid r →
  list_find (scoped n uid) (events db) = Some (i, r).
Proof.
  intros Huniq Hi Hr. apply list_find_Some. split_and!; try done.
  intros j y Hj Hlt [Hn Hu]. destruct Hr as [Hn' Hu'].
  assert (j = i); [|lia].
  eapply NoDup_lookup; [exact Huniq| |].
  - rewrite list_lookup_fmap, Hj. reflexivity.
  - rewrite list_lookup_fmap, Hi. simpl. congruence.
Qed.

Lemma select_scoped db n uid i r :
  wf db → events db !! i = Some r → scoped n uid r →
  select_event db n uid = inr (ev_id r, scanned r).
Proof.
  intros Hwf Hi Hr. unfold select_event.
  by rewrite (find_scoped _ _ _ _ _ (wf_event_unique _ Hwf) Hi Hr).
Qed.

(** What UpdateEvent does once the row is read and the body parsed: it
    sends the UPDATE of the merged fields for the row's id. *)
Lemma UpdateEvent_found env (c : Request decoded) db uid id oldEvent patch :
  Body c = Decoded (Some patch) →
  getUserID env c db = Return uid →
  fault env SiteQuery = None →
  fault env SitePrepare = None →
  fault env SiteExec = None →
  select_event db (Params_name c) uid = inr (id, oldEvent) →
  UpdateEvent env c db =
    let merged := merge oldEvent patch in
    match update_event db (Name merged) (Message merged) (Date merged) id with
    | inl err => Return (failed 500 (Error err), db)
    | inr db' => Return (updated id, db')
    end.
Proof.
  intros Hbody Huid Hq Hp He Hsel. unfold UpdateEvent.
  rewrite Hbody, Huid. simpl. unfold call.
  rewrite Hq, Hsel, Hp, He. simpl. by destruct (update_event _ _ _ _ _).
Qed.

End UpdateEvent.


Lemma sample_db1_wf : wf Sample.db1.
Proof. split; simpl; compute_done. Qed.

Lemma sample_db0_wf : wf Sample.db0.
Proof. split; simpl; compute_done. Qed.


(** In a well-formed table, writing a row's own fields back is accepted. *)
Lemma accepts_own_fields db i r :
  wf db → events db !! i = Some r →
  accepts db (ev_name r) (ev_message r) (ev_date r) (ev_id r).
Proof.
  intros Hwf Hi. split.
  - pose proof (wf_event_fits _ Hwf) as Hfits.
    eapply Forall_lookup_1 in Hfits; [|exact Hi]. done.
  - intros (r' & Hin & Hclash)%Exists_exists.
    apply (clashes_owner _ _ _ _ _ (wf_event_pk _ Hwf) Hi Hin) in Hclash
      as (Hne & Hn & Hu).
    apply list_elem_of_lookup in Hin as [j Hj].
    assert (j = i) as ->; [|congruence].
    eapply NoDup_lookup; [exact (wf_event_unique _ Hwf)| |].
    + rewrite list_lookup_fmap, Hj. reflexivity.
    + rewrite list_lookup_fmap, Hi. simpl. congruence.
Qed.

Lemma update_event_own_fields db i r :
  wf db → events db !! i = Some r →
  update_event db (ev_name r) (ev_message r) (ev_date r) (ev_id r) = inr db.
Proof.
  intros Hwf Hi.
  rewrite (update_event_accepted _ _ _ _ _ _ (wf_event_pk _ Hwf) Hi
             (accepts_own_fields _ _ _ Hwf Hi)).
  assert (set_fields (ev_name r) (ev_message r) (ev_date r) r = r) as ->
    by by destruct r.
  rewrite list_insert_id by done. by destruct db.
Qed.

(** C10: for an existing event, read at position [i] as the row [r] scoped
    by (name, userID), a parsed patch whose three fields are empty merges to
    the row's own fields; the UPDATE that writes them back leaves the store
    exactly as it was, and the answer is still the 200 envelope with status
    updated and the row's id. *)
Theorem UpdateEvent_empty_patch env (c : Request decoded) db uid i r patch :
  wf db →
  Body c = Decoded (Some patch) →
  Name patch = "" → Message patch = "" → Date patch = "" →
  getUserID env c db = Return uid →
  fault env SiteQuery = None →
  fault env SitePrepare = None →
  fault env SiteExec = None →
  events db !! i = Some r →
  scoped (Params_name c) uid r →
  merge (scanned r) patch = scanned r
  ∧ UpdateEvent env c db = Return (updated (ev_id r), db)
  ∧ StatusCode (updated (ev_id r)) = 200
  ∧ Payload (updated (ev_id r)) !! "status" = Some (Str "updated").
Proof.
  intros Hwf Hbody Hn Hm Hd Huid Hq Hp He Hi Hr.
  pose proof (merge_empty (scanned r) patch Hn Hm Hd) as Hmerge.
  split_and!; try done.
  pose proof (select_scoped _ _ _ _ _ Hwf Hi Hr) as Hsel.
  rewrite (UpdateEvent_found _ _ _ _ _ _ _ Hbody Huid Hq Hp He Hsel).
  rewrite Hmerge. simpl.
  by rewrite (update_event_own_fields _ _ _ Hwf Hi).
Qed.

Lemma UpdateEvent_empty_patch_witness :
  wf Sample.db1
  ∧ UpdateEvent Sample.env0
      (Sample.request (Decoded (Some (mkEvents "" "" ""))) "Meeting" "alice")
      Sample.db1
    = Return (updated 1, Sample.db1).
Proof.
  split; [exact sample_db1_wf|].
  apply (UpdateEvent_empty_patch Sample.env0
           (Sample.request (Decoded (Some (mkEvents "" "" ""))) "Meeting" "alice")
           Sample.db1 1 0%nat Sample.meeting (mkEvents "" "" "")
           sample_db1_wf eq_refl eq_refl eq_refl eq_refl eq_refl eq_refl
           eq_refl eq_refl eq_refl (conj eq_refl eq_refl)).
Defined.

(** C4, as the code has it: every successful UpdateEvent answers with
    exactly three fields, the status updated, the id of the row that the
    scoped SELECT read, and the fixed text "Event updated successfully";
    the merged name, date and message are not part of the answer. *)
Theorem UpdateEvent_success_answer env (c : Request decoded) db w db' :
  UpdateEvent env c db = Return (w, db') →
  StatusCode w = 200 →
  ∃ uid id oldEvent,
    getUserID env c db = Return uid
    ∧ select_event db (Params_name c) uid = inr (id, oldEvent)
    ∧ w = updated id
    ∧ dom (Payload w) = {[ "status"; "event_id"; "message" ]}
    ∧ Payload w !! "message" = Some (Str "Event updated successfully").
Proof.
  unfold UpdateEvent. intros Hrun Hok.
  destruct (Body c) as [msg|newEvent]; [by simplify_eq|].
  destruct (getUserID env c db) as [why|uid]; [done|]. simpl in Hrun.
  unfold call in Hrun.
  destruct (fault env SiteQuery); [by simplify_eq|].
  destruct (select_event db (Params_name c) uid) as [[|msg]|[id oldEvent]] eqn:Hsel;
    [by simplify_eq|by simplify_eq|].
  destruct newEvent as [newEvent|]; [|done].
  destruct (fault env SitePrepare); [by simplify_eq|].
  destruct (fault env SiteExec); [by simplify_eq|].
  destruct (update_event _ _ _ _ _); [by simplify_eq|].
  injection Hrun as <- <-.
  exists uid, id, oldEvent. split_and!; done.
Qed.

Lemma UpdateEvent_success_answer_witness :
  ∃ uid id oldEvent,
    getUserID Sample.env0
      (Sample.request (Decoded (Some (mkEvents "" "2025-01-16" "")))
         "Meeting" "alice") Sample.db1 = Return uid
    ∧ select_event Sample.db1 "Meeting" uid = inr (id, oldEvent)
    ∧ updated 1 = updated id
    ∧ dom (Payload (updated 1)) = {[ "status"; "event_id"; "message" ]}
    ∧ Payload (updated 1) !! "message" = Some (Str "Event updated successfully").
Proof.
  apply (UpdateEvent_success_answer Sample.env0
           (Sample.request (Decoded (Some (mkEvents "" "2025-01-16" "")))
              "Meeting" "alice")
           Sample.db1 (updated 1)
           (with_events Sample.db1 [mkEvent 1 "Meeting" "sync" "2025-01-16" 1]));
    reflexivity.
Defined.

(** C4, as stated, fails: the update of the date of "Meeting" succeeds,
    and its answer holds the status, the id and a fixed text, but neither the
    merged event nor its name, date or message. *)
Lemma UpdateEvent_answer_omits_event :
  UpdateEvent Sample.env0
    (Sample.request (Decoded (Some (mkEvents "" "2025-01-16" "")))
       "Meeting" "alice")
    Sample.db1
  = Return (updated 1,
            with_events Sample.db1 [mkEvent 1 "Meeting" "sync" "2025-01-16" 1])
  ∧ ¬ reports_event (updated 1) (mkEvents "Meeting" "2025-01-16" "sync")
  ∧ Payload (updated 1) !! "date" = None
  ∧ Payload (updated 1) !! "name" = None.
Proof.
  split_and!; [reflexivity| |reflexivity|reflexivity].
  intros [[k Hk]|(Hn & _)]; [|done].
  assert (map_Forall (λ _ v, v ≠ Details (mkEvents "Meeting" "2025-01-16" "sync"))
            (Payload (updated 1))) as Hall by compute_done.
  by apply (map_Forall_lookup_1 _ _ _ _ Hall) in Hk.
Qed.

(** ** CreateEvent, then GetEvent *)

Section Create.

Implicit Types (db : DB) (n m d : string) (uid id : Z) (r : Event).

Lemma insert_event_accepted db n m d uid db' :
  insert_event db n m d uid = inr db' ↔
  fits n m d
  ∧ ¬ Exists (scoped n uid) (events db)
  ∧ Exists (λ u, u_id u = uid) (users db)
  ∧ db' = {| users := users db;
             events := events db ++ [mkEvent (auto_increment db) n m d uid];
             auto_increment := auto_increment db + 1 |}.
Proof.
  unfold insert_event.
  destruct (decide (fits n m d)); [|by intuition].
  destruct (decide (Exists (scoped n uid) (events db))); [by intuition|].
  destruct (decide (Exists _ (users db))); [|by intuition].
  split; [by intros [= <-]|by intros (_ & _ & _ & ->)].
Qed.

(** The row just inserted is the one a scoped SELECT reads. *)
Lemma select_after_insert db n m d uid db' :
  insert_event db n m d uid = inr db' →
  select_event db' n uid
  = inr (auto_increment db, {| Name := n; Date := d; Message := m |}).
Proof.
  intros (_ & Hfresh & _ & ->)%insert_event_accepted.
  unfold select_event. simpl.
  assert (list_find (scoped n uid)
            (events db ++ [mkEvent (auto_increment db) n m d uid])
          = Some (length (events db), mkEvent (auto_increment db) n m d uid))
    as ->; [|done].
  apply list_find_Some. split_and!.
  - by rewrite lookup_app_r, Nat.sub_diag by lia.
  - done.
  - intros j y Hj Hlt Hy. apply Hfresh, Exists_exists. exists y.
    rewrite lookup_app_l in Hj by done.
    split; [by eapply list_elem_of_lookup_2|done].
Qed.

(** A resolved identity other than the sentinel comes from a users row. *)
Lemma getUserID_resolved {B} env (c : Request B) db uid :
  getUserID env c db = Return uid → uid ≠ 0 →
  ∃ username, issued_to c username ∧ select_user_id db username = inr uid.
Proof.
  unfold getUserID, issued_to, call. intros Hrun Hne.
  destruct (Locals_user c) as [|[claims|]]; try by simplify_eq.
  destruct (claims !! "username") as [[username| | |]|] eqn:Hclaim; try done.
  exists username. split; [by eauto|].
  destruct (fault env SiteUserID); [by simplify_eq|].
  destruct (select_user_id db username); by simplify_eq.
Qed.

Lemma CreateEvent_created env (c : Request decoded) db w db' :
  CreateEvent env c db = Return (w, db') →
  StatusCode w = 200 →
  ∃ event uid,
    Body c = Decoded (Some event)
    ∧ getUserID env c db = Return uid
    ∧ insert_event db (Name event) (Message event) (Date event) uid = inr db'
    ∧ w = created (Name event).
Proof.
  unfold CreateEvent, call. intros Hrun Hok.
  destruct (Body c) as [msg|event]; [by simplify_eq|].
  destruct (getUserID env c db) as [why|uid]; [done|]. simpl in Hrun.
  destruct (fault env SitePrepare); [by simplify_eq|].
  destruct event as [event|]; [|done].
  destruct (fault env SiteExec); [by simplify_eq|].
  destruct (insert_event _ _ _ _ _) as [err|db''] eqn:Hins; [by simplify_eq|].
  injection Hrun as <- <-. by exists event, uid.
Qed.

End Create.

(** C9: when CreateEvent with the body (X, D, M) succeeds on a well-formed
    store, a GetEvent of X that follows on the resulting store, with the same
    token and no driver failure, answers 200 with status fetched and the
    details X, D, M unchanged, under the id the insert gave the row. *)
Theorem CreateEvent_then_GetEvent {B} env env' (c : Request decoded)
    (c' : Request B) db w db' X D M :
  wf db →
  Body c = Decoded (Some (mkEvents X D M)) →
  CreateEvent env c db = Return (w, db') →
  StatusCode w = 200 →
  Locals_user c' = Locals_user c →
  Params_name c' = X →
  fault env' SiteUserID = None →
  fault env' SiteQuery = None →
  GetEvent env' c' db' = Return (fetched (auto_increment db) (mkEvents X D M), db')
  ∧ Payload (fetched (auto_increment db) (mkEvents X D M)) !! "details"
    = Some (Details {| Name := X; Date := D; Message := M |}).
Proof.
  intros Hwf Hbody Hrun Hok Hlocal Hname Hf1 Hf2.
  destruct (CreateEvent_created _ _ _ _ _ Hrun Hok)
    as (event & uid & Hbody' & Huid & Hins & _).
  rewrite Hbody in Hbody'. injection Hbody' as <-. simpl in Hins.
  split; [|done].
  pose proof Hins as (_ & _ & (u & Hu & Hid)%Exists_exists & Hdb')%insert_event_accepted.
  assert (uid ≠ 0) as Hne.
  { pose proof (wf_user_ids _ Hwf) as Hids.
    eapply Forall_forall in Hids; [|exact Hu]. lia. }
  destruct (getUserID_resolved _ _ _ _ Huid Hne)
    as (username & (claims & Hc & Hclaim) & Hsel).
  assert (getUserID env' c' db' = Return uid) as Huid'.
  { apply (getUserID_known _ _ _ username); try done.
    - exists claims. by rewrite Hlocal.
    - by rewrite Hdb'. }
  subst X. apply (GetEvent_row _ _ _ uid); try done.
  by apply select_after_insert.
Qed.

Lemma CreateEvent_then_GetEvent_witness :
  wf Sample.db1
  ∧ CreateEvent Sample.env0
      (Sample.request (Decoded (Some (mkEvents "X" "D" "M"))) "" "bob")
      Sample.db1
    = Return (created "X",
              mkDB [Sample.alice; Sample.bob]
                [Sample.meeting; mkEvent 2 "X" "M" "D" 2] 3)
  ∧ GetEvent Sample.env0 (Sample.request () "X" "bob")
      (mkDB [Sample.alice; Sample.bob]
         [Sample.meeting; mkEvent 2 "X" "M" "D" 2] 3)
    = Return (fetched 2 (mkEvents "X" "D" "M"),
              mkDB [Sample.alice; Sample.bob]
                [Sample.meeting; mkEvent 2 "X" "M" "D" 2] 3).
Proof.
  split; [exact sample_db1_wf|]. split; [reflexivity|].
  apply (CreateEvent_then_GetEvent Sample.env0 Sample.env0
           (Sample.request (Decoded (Some (mkEvents "X" "D" "M"))) "" "bob")
           (Sample.request () "X" "bob")
           Sample.db1 (created "X") _ "X" "D" "M" sample_db1_wf);
    reflexivity.
Defined.

(** ** login *)

Section Login.

Variable CompareHashAndPassword : string → string → option string.
Variable SignedString : gmap string any → string → string + string.
Variable secretKey : string.

Implicit Types (db : DB) (creds : Credentials) (u : User).




End Login.


(** ** The response envelope *)

Lemma CreateEvent_envelope env (c : Request decoded) db w db' :
  CreateEvent env c db = Return (w, db') → envelope w.
Proof.
  unfold CreateEvent, call.
  destruct (Body c) as [msg|event]; [answer_in_envelope|].
  destruct (getUserID env c db) as [why|uid]; simpl; [answer_in_envelope|].
  destruct (fault env SitePrepare); [answer_in_envelope|].
  destruct event as [event|]; [|answer_in_envelope].
  destruct (fault env SiteExec); [answer_in_envelope|].
  destruct (insert_event _ _ _ _ _); answer_in_envelope.
Qed.

Lemma UpdateEvent_envelope env (c : Request decoded) db w db' :
  UpdateEvent env c db = Return (w, db') → envelope w.
Proof.
  unfold UpdateEvent, call.
  destruct (Body c) as [msg|newEvent]; [answer_in_envelope|].
  destruct (getUserID env c db) as [why|uid]; simpl; [answer_in_envelope|].
  destruct (fault env SiteQuery); [answer_in_envelope|].
  destruct (select_event _ _ _) as [[|msg]|[id oldEvent]];
    [answer_in_envelope|answer_in_envelope|].
  destruct newEvent as [newEvent|]; [|answer_in_envelope].
  destruct (fault env SitePrepare); [answer_in_envelope|].
  destruct (fault env SiteExec); [answer_in_envelope|].
  destruct (update_event _ _ _ _ _); answer_in_envelope.
Qed.

Lemma GetEvent_envelope {B} env (c : Request B) db w db' :
  GetEvent env c db = Return (w, db') → envelope w.
Proof.
  unfold GetEvent, call.
  destruct (getUserID env c db) as [why|uid]; simpl; [answer_in_envelope|].
  destruct (fault env SiteQuery); [answer_in_envelope|].
  destruct (select_event _ _ _) as [[|msg]|[id event]]; answer_in_envelope.
Qed.

Lemma DeleteEvent_envelope {B} env (c : Request B) db w db' :
  DeleteEvent env c db = Return (w, db') → envelope w.
Proof.
  unfold DeleteEvent, call, delete_event.
  destruct (getUserID env c db) as [why|uid]; simpl; [answer_in_envelope|].
  destruct (fault env SitePrepare); [answer_in_envelope|].
  destruct (fault env SiteExec); [answer_in_envelope|].
  destruct (fault env SiteRowsAffected); [answer_in_envelope|].
  destruct (decide _); answer_in_envelope.
Qed.

(** With a token as [jwtSigner] issues it and a body that is not the JSON
    literal null, the handlers return. *)
Lemma handlers_return env (c : Request decoded) db username :
  issued_to c username →
  Body c ≠ Decoded None →
  (∃ a, CreateEvent env c db = Return a)
  ∧ (∃ a, UpdateEvent env c db = Return a)
  ∧ (∃ a, GetEvent env c db = Return a)
  ∧ (∃ a, DeleteEvent env c db = Return a).
Proof.
  intros Hc Hbody.
  unfold CreateEvent, UpdateEvent, GetEvent, DeleteEvent.
  rewrite (getUserID_issued _ _ _ _ Hc). simpl.
  generalize (match call env SiteUserID (select_user_id db username) with
              | inl _ => 0
              | inr userID => userID
              end).
  intros uid. unfold call. split_and!.
  - destruct (Body c) as [msg|[event|]]; [by eauto| |done].
    destruct (fault env SitePrepare); [by eauto|].
    destruct (fault env SiteExec); [by eauto|].
    destruct (insert_event _ _ _ _ _); by eauto.
  - destruct (Body c) as [msg|[newEvent|]]; [by eauto| |done].
    destruct (fault env SiteQuery); [by eauto|].
    destruct (select_event _ _ _) as [[|msg]|[id oldEvent]]; [by eauto|by eauto|].
    destruct (fault env SitePrepare); [by eauto|].
    destruct (fault env SiteExec); [by eauto|].
    destruct (update_event _ _ _ _ _); by eauto.
  - destruct (fault env SiteQuery); [by eauto|].
    destruct (select_event _ _ _) as [[|msg]|[id event]]; by eauto.
  - unfold delete_event.
    destruct (fault env SitePrepare); [by eauto|].
    destruct (fault env SiteExec); [by eauto|].
    destruct (fault env SiteRowsAffected); [by eauto|].
    destruct (decide _); by eauto.
Qed.

(** C5, as the code has it: every answer that the four event handlers
    return, success or failure, is a JSON object with a [status] among
    created, updated, fetched, deleted, error and a [message]; and for a
    request with an issued token and a body other than null they do return.
    The token answer of [jwtSigner] has the one field [token]. *)
Theorem event_handlers_answer_in_envelope env (c : Request decoded) db username :
  issued_to c username →
  Body c ≠ Decoded None →
  answers_in_envelope (CreateEvent env c db)
  ∧ answers_in_envelope (UpdateEvent env c db)
  ∧ answers_in_envelope (GetEvent env c db)
  ∧ answers_in_envelope (DeleteEvent env c db)
  ∧ (∀ SignedString key w signedToken,
       SignedString (claims_for env username) key = inr signedToken →
       Payload (jwtSigner SignedString key env w username)
       = {[ "token" := Str signedToken ]}).
Proof.
  intros Hc Hbody.
  destruct (handlers_return env c db username Hc Hbody)
    as ([[w1 d1] H1] & [[w2 d2] H2] & [[w3 d3] H3] & [[w4 d4] H4]).
  unfold answers_in_envelope. split_and!.
  - exists w1, d1. eauto using CreateEvent_envelope.
  - exists w2, d2. eauto using UpdateEvent_envelope.
  - exists w3, d3. eauto using GetEvent_envelope.
  - exists w4, d4. eauto using DeleteEvent_envelope.
  - intros SignedString key w signedToken Hsign. unfold jwtSigner.
    fold (claims_for env username). by rewrite Hsign.
Qed.

Lemma event_handlers_answer_in_envelope_witness :
  issued_to (Sample.request (Decoded (Some (mkEvents "X" "D" "M"))) "Meeting" "alice")
    "alice"
  ∧ answers_in_envelope
      (GetEvent Sample.env0
         (Sample.request (Decoded (Some (mkEvents "X" "D" "M"))) "Meeting" "alice")
         Sample.db1).
Proof.
  assert (issued_to
            (Sample.request (Decoded (Some (mkEvents "X" "D" "M"))) "Meeting" "alice")
            "alice") as Hc.
  { eexists. split; reflexivity. }
  split; [exact Hc|].
  apply (event_handlers_answer_in_envelope Sample.env0
           (Sample.request (Decoded (Some (mkEvents "X" "D" "M"))) "Meeting" "alice")
           Sample.db1 "alice" Hc).
  discriminate.
Defined.

(** C5, as stated, fails on the public route: a successful login answers
    with the one field [token], and a login with a wrong password with the one
    field [error]; neither answer has a [status] or a [message]. *)
Lemma login_answers_outside_envelope :
  login Sample.compare Sample.sign "key" Sample.env0
    (mkRequest (inr (mkCredentials "alice" "alice")) "" NoToken) Sample.db1
  = {| StatusCode := 200; Payload := {[ "token" := Str "header.alice.key" ]} |}
  ∧ ¬ envelope {| StatusCode := 200;
                  Payload := {[ "token" := Str "header.alice.key" ]} |}
  ∧ login Sample.compare Sample.sign "key" Sample.env0
      (mkRequest (inr (mkCredentials "alice" "guess")) "" NoToken) Sample.db1
    = {| StatusCode := 401;
         Payload := {[ "error" := Str "Invalid username or password" ]} |}
  ∧ ¬ envelope {| StatusCode := 401;
                  Payload := {[ "error" := Str "Invalid username or password" ]} |}.
Proof.
  split_and!; [reflexivity| |reflexivity|];
    by intros [(s & Hs & _) _].
Qed.

(** ** DeleteEvent *)

Section Delete.

Implicit Types (db : DB) (n : string) (uid : Z) (r : Event).

Lemma rows_affected_zero db n uid :
  Z.of_nat (length (filter (scoped n uid) (events db))) = 0
  ↔ ¬ Exists (scoped n uid) (events db).
Proof.
  rewrite Exists_exists. split.
  - intros Hlen (r & Hin & Hr).
    assert (r ∈ filter (scoped n uid) (events db)) as Hin'
      by by apply list_elem_of_filter.
    destruct (filter _ _); [by apply elem_of_nil in Hin'|simpl in Hlen; lia].
  - intros Hno. destruct (filter _ _) as [|r l] eqn:Hf; [done|].
    exfalso. apply Hno. exists r.
    assert (r ∈ filter (scoped n uid) (events db)) as Hin
      by (rewrite Hf; left).
    apply list_elem_of_filter in Hin as [? ?]. done.
Qed.

(** After the DELETE no row is scoped by (name, userID). *)
Lemma select_after_delete db n uid :
  select_event (delete_event db n uid).2 n uid = inl ErrNoRows.
Proof.
  apply select_event_absent. simpl.
  intros (r & Hin & Hr)%Exists_exists.
  by apply list_elem_of_filter in Hin as [? ?].
Qed.

(** What DeleteEvent does when the driver does not fail: it removes
    exactly the rows scoped by (name, userID), answers 404 when there was
    none and 200 otherwise. *)
Lemma DeleteEvent_healthy {B} env (c : Request B) db uid :
  getUserID env c db = Return uid →
  fault env SitePrepare = None →
  fault env SiteExec = None →
  fault env SiteRowsAffected = None →
  DeleteEvent env c db =
    Return (if decide (Exists (scoped (Params_name c) uid) (events db))
            then deleted (Params_name c)
            else failed 404 "Record not found",
            with_events db
              (filter (λ r, ¬ scoped (Params_name c) uid r) (events db))).
Proof.
  intros Huid Hp He Hr. unfold DeleteEvent, call, delete_event.
  rewrite Huid. simpl. rewrite Hp, He, Hr.
  destruct (decide (Z.of_nat _ = 0)) as [Hz|Hz];
    rewrite rows_affected_zero in Hz.
  - by rewrite decide_False.
  - rewrite decide_True; [done|]. by apply dec_stable.
Qed.

End Delete.

(** C7, at a failing input: alice deletes her event "Meeting" and gets
    the 200 confirmation, the row is gone, and her next GetEvent of "Meeting"
    ends with status 500 and the text of sql.ErrNoRows instead of 404. *)
Theorem DeleteEvent_then_GetEvent_is_500 :
  DeleteEvent Sample.env0 (Sample.request () "Meeting" "alice") Sample.db1
  = Return (deleted "Meeting", with_events Sample.db1 [])
  ∧ GetEvent Sample.env0 (Sample.request () "Meeting" "alice")
      (with_events Sample.db1 [])
    = Return (failed 500 "sql: no rows in result set", with_events Sample.db1 []).
Proof. split; reflexivity. Qed.

(** C8, at a failing input: alice creates the event "X"; bob, with a
    token of his own, fetches "X" and is shown nothing of it, but his request
    ends with status 500 and the text of sql.ErrNoRows instead of 404. *)
Theorem GetEvent_of_other_user_is_500 :
  CreateEvent Sample.env0
    (Sample.request (Decoded (Some (mkEvents "X" "D" "M"))) "" "alice")
    Sample.db0
  = Return (created "X",
            mkDB [Sample.alice; Sample.bob] [mkEvent 1 "X" "M" "D" 1] 2)
  ∧ GetEvent Sample.env0 (Sample.request () "X" "bob")
      (mkDB [Sample.alice; Sample.bob] [mkEvent 1 "X" "M" "D" 1] 2)
    = Return (failed 500 "sql: no rows in result set",
              mkDB [Sample.alice; Sample.bob] [mkEvent 1 "X" "M" "D" 1] 2).
Proof. split; reflexivity. Qed.

(** ** Ownership: rows of other users *)

Section Ownership.

Implicit Types (db : DB) (n m d : string) (uid id : Z) (r : Event).











End Ownership.

(** ** The schema's constraints are kept *)

Section Invariant.

Implicit Types (db : DB) (n m d : string) (uid id : Z) (r : Event).





End Invariant.

(** ** Summary theorems *)









(** ** signup *)

Lemma insert_user_accepted (s : Server) username hash s' :
  insert_user s username hash = inr s' ↔
  fits_user username hash
  ∧ ¬ Exists (λ u, u_username u = username) (users (tables s))
  ∧ s' = registered s username hash.
Proof.
  unfold insert_user.
  destruct (decide (fits_user username hash)); [|by intuition].
  destruct (decide (Exists _ _)); [by intuition|].
  split; [by intros [= <-]|by intros (_ & _ & ->)].
Qed.

Lemma insert_user_rejected (s : Server) username hash err :
  insert_user s username hash = inl err → err ≠ ErrNoRows.
Proof.
  unfold insert_user. repeat case_decide; by intros [= <-].
Qed.

Section Signup.

Variable GenerateFromPassword : string → string → string + string.
Variable SignedString : gmap string any → string → string + string.
Variable secretKey : string.

Implicit Types (s : Server) (creds : Credentials) (u : User).


(** The answers of [jwtSigner]. *)
Lemma jwtSigner_answers env username :
  (∃ signedToken,
     SignedString (claims_for env username) secretKey = inr signedToken
     ∧ jwtSigner SignedString secretKey env fresh username
       = {| StatusCode := 200; Payload := {[ "token" := Str signedToken ]} |})
  ∨ (∃ e, SignedString (claims_for env username) secretKey = inl e
     ∧ jwtSigner SignedString secretKey env fresh username
       = {| StatusCode := 500;
            Payload := {[ "error" := Str "Failed to generate token" ]} |}).
Proof.
  unfold jwtSigner. fold (claims_for env username).
  destruct (SignedString _ _) as [e|signedToken]; [right|left]; by eauto.
Qed.

End Signup.

(** A successful signup: when signup answers with a token, the body was
    parsed, the stored password is the bcrypt hash of the submitted one, the
    username was free, exactly one users row was appended under a fresh id,
    the events table is untouched, and the token is the signature of claims
    for the submitted username. *)
Theorem signup_registers_user GenerateFromPassword SignedString secretKey
    salt env (c : Request (string + Credentials)) s w s' :
  signup GenerateFromPassword SignedString secretKey salt env c s = (w, s') →
  is_Some (Payload w !! "token") →
  ∃ creds hash signedToken,
    Body c = inr creds
    ∧ GenerateFromPassword salt (Password creds) = inr hash
    ∧ SignedString (claims_for env (Username creds)) secretKey = inr signedToken
    ∧ w = {| StatusCode := 200; Payload := {[ "token" := Str signedToken ]} |}
    ∧ (∀ u, u ∈ users (tables s) → u_username u ≠ Username creds)
    ∧ users (tables s')
      = (users (tables s)
         ++ [mkUser (users_auto_increment s) (Username creds) hash])%list
    ∧ events (tables s') = events (tables s)
    ∧ users_auto_increment s' = users_auto_increment s + 1.
Proof.
  unfold signup, call. intros Hrun [v Hv].
  destruct (Body c) as [e|creds]; [by simplify_eq|].
  destruct (GenerateFromPassword salt (Password creds)) as [e|hash] eqn:Hgen;
    [by simplify_eq|].
  destruct (fault env SitePrepare); [by simplify_eq|].
  destruct (fault env SiteExec); [by simplify_eq|].
  destruct (insert_user s (Username creds) hash) as [err|s''] eqn:Hins;
    [by simplify_eq|].
  injection Hrun as <- <-.
  apply insert_user_accepted in Hins as (_ & Hfree & ->).
  destruct (jwtSigner_answers SignedString secretKey env (Username creds))
    as [(signedToken & Hsign & Heq)|(e & _ & Heq)];
    rewrite Heq in Hv |- *; [|done].
  exists creds, hash, signedToken. split_and!; try done.
  intros u Hu Hname. apply Hfree, Exists_exists. by exists u.
Qed.

Lemma signup_registers_user_witness :
  ∃ creds hash signedToken,
    Body (Sample.credentials "carol" "secret") = inr creds
    ∧ Sample.generate "salt" (Password creds) = inr hash
    ∧ Sample.sign (claims_for Sample.env0 (Username creds)) "key" = inr signedToken
    ∧ {| StatusCode := 200; Payload := {[ "token" := Str "header.carol.key" ]} |}
      = {| StatusCode := 200; Payload := {[ "token" := Str signedToken ]} |}
    ∧ (∀ u, u ∈ users (tables Sample.server1) → u_username u ≠ Username creds)
    ∧ users (tables (registered Sample.server1 "carol" "$2a$10$secret"))
      = (users (tables Sample.server1)
         ++ [mkUser (users_auto_increment Sample.server1) (Username creds) hash])%list
    ∧ events (tables (registered Sample.server1 "carol" "$2a$10$secret"))
      = events (tables Sample.server1)
    ∧ users_auto_increment (registered Sample.server1 "carol" "$2a$10$secret")
      = users_auto_increment Sample.server1 + 1.
Proof.
  apply (signup_registers_user Sample.generate Sample.sign "key" "salt"
           Sample.env0 (Sample.credentials "carol" "secret")
           Sample.server1 _ _ eq_refl).
  by eexists.
Defined.

(** A taken username: when a users row already has the submitted
    username, signup answers 500 in the error envelope and leaves the store
    as it was, whatever the driver does at the INSERT. *)
Theorem signup_duplicate_username GenerateFromPassword SignedString secretKey
    salt env (c : Request (string + Credentials)) s creds hash u :
  Body c = inr creds →
  GenerateFromPassword salt (Password creds) = inr hash →
  fault env SitePrepare = None →
  u ∈ users (tables s) →
  u_username u = Username creds →
  ∃ msg,
    signup GenerateFromPassword SignedString secretKey salt env c s
    = (failed 500 msg, s).
Proof.
  intros Hbody Hgen Hp Hu Hname. unfold signup, call.
  rewrite Hbody, Hgen, Hp.
  destruct (fault env SiteExec) as [msg|]; [by eauto|].
  destruct (insert_user s (Username creds) hash) as [err|s'] eqn:Hins;
    [by eauto|].
  apply insert_user_accepted in Hins as (_ & Hfree & _).
  destruct Hfree. apply Exists_exists. by exists u.
Qed.

Lemma signup_duplicate_username_witness :
  ∃ msg,
    signup Sample.generate Sample.sign "key" "salt" Sample.env0
      (Sample.credentials "alice" "other") Sample.server1
    = (failed 500 msg, Sample.server1).
Proof.
  apply (signup_duplicate_username Sample.generate Sample.sign "key" "salt"
           Sample.env0
           (Sample.credentials "alice" "other")
           Sample.server1 (mkCredentials "alice" "other") "$2a$10$other"
           Sample.alice eq_refl eq_refl eq_refl);
    [simpl; set_solver|reflexivity].
Defined.



(** ** signup, then the other routes *)

Lemma signup_inserted GenerateFromPassword SignedString secretKey
    salt env (c : Request (string + Credentials)) s w s' :
  signup GenerateFromPassword SignedString secretKey salt env c s = (w, s') →
  is_Some (Payload w !! "token") →
  ∃ creds hash,
    Body c = inr creds
    ∧ GenerateFromPassword salt (Password creds) = inr hash
    ∧ insert_user s (Username creds) hash = inr s'.
Proof.
  unfold signup, call. intros Hrun [v Hv].
  destruct (Body c) as [e|creds]; [by simplify_eq|].
  destruct (GenerateFromPassword salt (Password creds)) as [e|hash] eqn:Hgen;
    [by simplify_eq|].
  destruct (fault env SitePrepare); [by simplify_eq|].
  destruct (fault env SiteExec); [by simplify_eq|].
  destruct (insert_user s (Username creds) hash) as [err|s''] eqn:Hins;
    [by simplify_eq|].
  injection Hrun as <- <-. by exists creds, hash.
Qed.

(** The users row just inserted is the one a lookup by name reads. *)
Lemma find_registered (s : Server) username hash :
  ¬ Exists (λ u, u_username u = username) (users (tables s)) →
  list_find (λ u, u_username u = username)
    (users (tables (registered s username hash)))
  = Some (length (users (tables s)),
          mkUser (users_auto_increment s) username hash).
Proof.
  intros Hfree. simpl. apply list_find_Some. split_and!.
  - by rewrite lookup_app_r, Nat.sub_diag by lia.
  - done.
  - intros j y Hj Hlt Hy. apply Hfree, Exists_exists. exists y.
    rewrite lookup_app_l in Hj by done.
    split; [by eapply list_elem_of_lookup_2|done].
Qed.

(** signup, then login: when bcrypt accepts the hashes it generates, a
    login with the credentials of a successful signup passes the password
    check and answers as [jwtSigner] does, with 200 and a token for the
    username when the signature succeeds. *)
Theorem signup_then_login GenerateFromPassword CompareHashAndPassword
    SignedString secretKey salt env env'
    (c : Request (string + Credentials)) s w s' creds :
  (∀ salt password hash,
     GenerateFromPassword salt password = inr hash →
     CompareHashAndPassword hash password = None) →
  signup GenerateFromPassword SignedString secretKey salt env c s = (w, s') →
  is_Some (Payload w !! "token") →
  Body c = inr creds →
  fault env' SiteQuery = None →
  login CompareHashAndPassword SignedString secretKey env' c (tables s')
  = jwtSigner SignedString secretKey env' fresh (Username creds)
  ∧ ∀ signedToken,
      SignedString (claims_for env' (Username creds)) secretKey = inr signedToken →
      login CompareHashAndPassword SignedString secretKey env' c (tables s')
      = {| StatusCode := 200; Payload := {[ "token" := Str signedToken ]} |}.
Proof.
  intros Hbcrypt Hrun Htoken Hbody Hq.
  destruct (signup_inserted _ _ _ _ _ _ _ _ _ Hrun Htoken)
    as (creds' & hash & Hbody' & Hgen & Hins).
  rewrite Hbody in Hbody'. injection Hbody' as <-.
  apply insert_user_accepted in Hins as (_ & Hfree & ->).
  assert (login CompareHashAndPassword SignedString secretKey env' c
            (tables (registered s (Username creds) hash))
          = jwtSigner SignedString secretKey env' fresh (Username creds)) as Hlogin.
  { unfold login, call, select_user_password.
    rewrite Hbody, Hq, (find_registered _ _ _ Hfree). simpl.
    by rewrite (Hbcrypt _ _ _ Hgen). }
  split; [done|].
  intros signedToken Hsign. rewrite Hlogin.
  unfold jwtSigner. fold (claims_for env' (Username creds)). by rewrite Hsign.
Qed.

Lemma sample_bcrypt salt password hash :
  Sample.generate salt password = inr hash →
  Sample.compare hash password = None.
Proof.
  unfold Sample.generate, Sample.compare.
  case_decide; [|done]. intros [= <-]. by rewrite decide_True.
Qed.

Lemma signup_then_login_witness :
  login Sample.compare Sample.sign "key" Sample.env0
    (Sample.credentials "carol" "secret")
    (tables (registered Sample.server1 "carol" "$2a$10$secret"))
  = {| StatusCode := 200; Payload := {[ "token" := Str "header.carol.key" ]} |}.
Proof.
  apply (signup_then_login Sample.generate Sample.compare Sample.sign "key"
           "salt" Sample.env0 Sample.env0
           (Sample.credentials "carol" "secret") Sample.server1
           {| StatusCode := 200;
              Payload := {[ "token" := Str "header.carol.key" ]} |}
           (registered Sample.server1 "carol" "$2a$10$secret")
           (mkCredentials "carol" "secret")
           sample_bcrypt eq_refl);
    [by eexists|reflexivity|reflexivity|reflexivity].
Defined.

(** A well-formed store has no event of a user id at or above the
    counter. *)
Lemma no_event_of_new_user s n :
  wf_server s →
  ¬ Exists (scoped n (users_auto_increment s)) (events (tables s)).
Proof.
  intros (Hwf & _ & Hbelow) (r & Hr & _ & Howner)%Exists_exists.
  pose proof (wf_event_owner _ Hwf) as Hown.
  eapply Forall_forall in Hown; [|exact Hr].
  apply Exists_exists in Hown as (u & Hu & Hid).
  eapply Forall_forall in Hbelow; [|exact Hu]. lia.
Qed.

(** signup, then CreateEvent: on a well-formed store, a request that
    carries a token for the username of a successful signup resolves to the
    id of the new users row, and its CreateEvent of an event that fits the
    columns answers 200 and appends the event under that owner, when the
    driver does not fail. *)
Theorem signup_then_CreateEvent GenerateFromPassword SignedString secretKey
    salt env env' (c : Request (string + Credentials)) (c' : Request decoded)
    s w s' creds event :
  wf_server s →
  signup GenerateFromPassword SignedString secretKey salt env c s = (w, s') →
  is_Some (Payload w !! "token") →
  Body c = inr creds →
  issued_to c' (Username creds) →
  Body c' = Decoded (Some event) →
  fits (Name event) (Message event) (Date event) →
  fault env' SiteUserID = None →
  fault env' SitePrepare = None →
  fault env' SiteExec = None →
  getUserID env' c' (tables s') = Return (users_auto_increment s)
  ∧ ∃ db', CreateEvent env' c' (tables s') = Return (created (Name event), db')
      ∧ events db'
        = (events (tables s)
           ++ [mkEvent (auto_increment (tables s)) (Name event) (Message event)
                 (Date event) (users_auto_increment s)])%list.
Proof.
  intros Hwf Hrun Htoken Hbody Hc' Hbody' Hfits Hu Hp He.
  destruct (signup_inserted _ _ _ _ _ _ _ _ _ Hrun Htoken)
    as (creds' & hash & Hb & Hgen & Hins).
  rewrite Hbody in Hb. injection Hb as <-.
  apply insert_user_accepted in Hins as (_ & Hfree & ->).
  assert (getUserID env' c' (tables (registered s (Username creds) hash))
          = Return (users_auto_increment s)) as Huid.
  { apply (getUserID_known _ _ _ (Username creds)); try done.
    unfold select_user_id. by rewrite (find_registered _ _ _ Hfree). }
  split; [done|].
  assert (insert_event (tables (registered s (Username creds) hash))
            (Name event) (Message event) (Date event) (users_auto_increment s)
          = inr {| users := users (tables (registered s (Username creds) hash));
                   events := events (tables s)
                             ++ [mkEvent (auto_increment (tables s)) (Name event)
                                   (Message event) (Date event)
                                   (users_auto_increment s)];
                   auto_increment := auto_increment (tables s) + 1 |}) as Hins.
  { apply insert_event_accepted. split_and!; try done.
    - exact (no_event_of_new_user s _ Hwf).
    - simpl. apply Exists_app. right. by apply Exists_cons_hd. }
  unfold CreateEvent, call. rewrite Hbody', Huid.
  unfold mbind, outcome_bind. rewrite Hp, He, Hins.
  by eexists.
Qed.

Lemma sample_server1_wf : wf_server Sample.server1.
Proof. split_and!; [exact sample_db1_wf|done|simpl; compute_done]. Qed.

Lemma signup_then_CreateEvent_witness :
  wf_server Sample.server1
  ∧ getUserID Sample.env0
      (Sample.request (Decoded (Some (mkEvents "X" "D" "M"))) "" "carol")
      (tables (registered Sample.server1 "carol" "$2a$10$secret"))
    = Return 3.
Proof.
  split; [exact sample_server1_wf|].
  apply (signup_then_CreateEvent Sample.generate Sample.sign "key" "salt"
           Sample.env0 Sample.env0 (Sample.credentials "carol" "secret")
           (Sample.request (Decoded (Some (mkEvents "X" "D" "M"))) "" "carol")
           Sample.server1
           {| StatusCode := 200;
              Payload := {[ "token" := Str "header.carol.key" ]} |}
           (registered Sample.server1 "carol" "$2a$10$secret")
           (mkCredentials "carol" "secret") (mkEvents "X" "D" "M")
           sample_server1_wf eq_refl);
    [by eexists|reflexivity|by eexists|reflexivity|compute_done
    |reflexivity|reflexivity|reflexivity].
Defined.

(** ** The constraints over a run of requests *)












(** ** Requests that change nothing *)

Lemma filter_all {A} (P : A → Prop) `{!∀ x, Decision (P x)} (l : list A) :
  Forall P l → filter P l = l.
Proof.
  induction 1 as [|x l Hx Hl IH]; [done|].
  by rewrite filter_cons_True, IH.
Qed.

Lemma with_events_same db : with_events db (events db) = db.
Proof. by destruct db. Qed.

(** A DELETE that matches no row leaves the store as it was. *)
Lemma delete_event_none db n uid :
  ¬ Exists (scoped n uid) (events db) →
  delete_event db n uid = (0, db).
Proof.
  intros Hno. unfold delete_event. f_equal.
  - by apply rows_affected_zero.
  - rewrite filter_all; [apply with_events_same|].
    by apply not_Exists_Forall; [apply _|].
Qed.


(** In a well-formed store nothing belongs to the id 0. *)
Lemma nothing_of_sentinel db :
  wf db →
  ¬ Exists (λ u, u_id u = 0) (users db)
  ∧ ∀ n, ¬ Exists (scoped n 0) (events db).
Proof.
  intros Hwf.
  assert (¬ Exists (λ u, u_id u = 0) (users db)) as Hno.
  { intros (u & Hu & Hid)%Exists_exists.
    pose proof (wf_user_ids _ Hwf) as Hids.
    eapply Forall_forall in Hids; [|exact Hu]. lia. }
  split; [done|].
  intros n (r & Hr & _ & Howner)%Exists_exists.
  pose proof (wf_event_owner _ Hwf) as Hown.
  eapply Forall_forall in Hown; [|exact Hr].
  rewrite Howner in Hown. done.
Qed.

(** The sentinel identity: on a store that satisfies the schema's
    constraints, a request whose identity resolves to 0 is never answered
    with 200 by an event handler and never changes the store. *)
Theorem unresolved_identity_changes_nothing env (c : Request decoded) db w db' :
  wf db →
  getUserID env c db = Return 0 →
  CreateEvent env c db = Return (w, db')
  ∨ UpdateEvent env c db = Return (w, db')
  ∨ GetEvent env c db = Return (w, db')
  ∨ DeleteEvent env c db = Return (w, db') →
  db' = db ∧ StatusCode w ≠ 200.
Proof.
  intros Hwf Huid Hrun.
  destruct (nothing_of_sentinel db Hwf) as [Huser Hevent].
  destruct Hrun as [H|[H|[H|H]]]; revert H.
  - unfold CreateEvent, call. rewrite Huid.
    destruct (Body c) as [msg|event]; [by intros [= <- <-]|]. simpl.
    destruct (fault env SitePrepare); [by intros [= <- <-]|].
    destruct event as [event|]; [|done].
    destruct (fault env SiteExec); [by intros [= <- <-]|].
    destruct (insert_event _ _ _ _ _) as [err|db''] eqn:Hins;
      [by intros [= <- <-]|].
    by apply insert_event_accepted in Hins as (_ & _ & ? & _).
  - unfold UpdateEvent, call. rewrite Huid.
    destruct (Body c) as [msg|newEvent]; [by intros [= <- <-]|]. simpl.
    destruct (fault env SiteQuery); [by intros [= <- <-]|].
    rewrite (proj2 (select_event_absent db (Params_name c) 0) (Hevent _)).
    by intros [= <- <-].
  - unfold GetEvent, call. rewrite Huid. simpl.
    destruct (fault env SiteQuery); [by intros [= <- <-]|].
    rewrite (proj2 (select_event_absent db (Params_name c) 0) (Hevent _)).
    by intros [= <- <-].
  - unfold DeleteEvent, call. rewrite Huid. simpl.
    destruct (fault env SitePrepare); [by intros [= <- <-]|].
    destruct (fault env SiteExec); [by intros [= <- <-]|].
    rewrite (delete_event_none _ _ _ (Hevent (Params_name c))).
    destruct (fault env SiteRowsAffected); [by intros [= <- <-]|].
    rewrite decide_True by done. by intros [= <- <-].
Qed.

Lemma unresolved_identity_changes_nothing_witness :
  wf Sample.db1
  ∧ getUserID Sample.env0
      (Sample.request (Decoded (Some (mkEvents "X" "D" "M"))) "Meeting" "carol")
      Sample.db1 = Return 0
  ∧ Sample.db1 = Sample.db1 ∧ StatusCode (failed 404 "Record not found") ≠ 200.
Proof.
  split; [exact sample_db1_wf|]. split; [reflexivity|].
  apply (unresolved_identity_changes_nothing Sample.env0
           (Sample.request (Decoded (Some (mkEvents "X" "D" "M"))) "Meeting" "carol")
           Sample.db1 (failed 404 "Record not found") Sample.db1
           sample_db1_wf eq_refl).
  right. right. right. reflexivity.
Defined.



(** ** Event names are per user *)



(** After a successful CreateEvent the request resolves to the same
    identity on the resulting store when the identity query does not fail. *)
Lemma CreateEvent_identity_kept env env' (c : Request decoded) db w db' :
  wf db →
  CreateEvent env c db = Return (w, db') →
  StatusCode w = 200 →
  fault env' SiteUserID = None →
  ∃ event uid,
    Body c = Decoded (Some event)
    ∧ insert_event db (Name event) (Message event) (Date event) uid = inr db'
    ∧ getUserID env' c db' = Return uid.
Proof.
  intros Hwf Hrun Hok Hf.
  destruct (CreateEvent_created _ _ _ _ _ Hrun Hok)
    as (event & uid & Hbody & Huid & Hins & _).
  exists event, uid. split_and!; try done.
  pose proof Hins as (_ & _ & (u & Hu & Hid)%Exists_exists & Hdb')%insert_event_accepted.
  assert (uid ≠ 0) as Hne.
  { pose proof (wf_user_ids _ Hwf) as Hids.
    eapply Forall_forall in Hids; [|exact Hu]. lia. }
  destruct (getUserID_resolved _ _ _ _ Huid Hne) as (username & Hc & Hsel).
  apply (getUserID_known _ _ _ username); try done. by rewrite Hdb'.
Qed.

(** CreateEvent twice: after a CreateEvent that answered 200, the same
    request sent again is answered 500 and leaves the store as it was: the
    duplicate (name, owner) is refused by the store and reported as a server
    error. *)
Theorem CreateEvent_twice_is_500 env env' (c : Request decoded) db w db' :
  wf db →
  CreateEvent env c db = Return (w, db') →
  StatusCode w = 200 →
  fault env' SiteUserID = None →
  ∃ msg, CreateEvent env' c db' = Return (failed 500 msg, db').
Proof.
  intros Hwf Hrun Hok Hf.
  destruct (CreateEvent_identity_kept _ env' _ _ _ _ Hwf Hrun Hok Hf)
    as (event & uid & Hbody & Hins & Huid).
  unfold CreateEvent, call. rewrite Hbody, Huid. unfold mbind, outcome_bind.
  destruct (fault env' SitePrepare); [by eauto|].
  destruct (fault env' SiteExec); [by eauto|].
  destruct (insert_event db' _ _ _ _) as [err|db''] eqn:Hagain; [by eauto|].
  exfalso.
  apply insert_event_accepted in Hagain as (_ & Hfresh & _).
  apply insert_event_accepted in Hins as (_ & _ & _ & ->).
  apply Hfresh. simpl. apply Exists_app. right. by apply Exists_cons_hd.
Qed.

Lemma CreateEvent_twice_is_500_witness :
  wf Sample.db1
  ∧ ∃ msg,
      CreateEvent Sample.env0
        (Sample.request (Decoded (Some (mkEvents "X" "D" "M"))) "" "bob")
        (mkDB [Sample.alice; Sample.bob]
           [Sample.meeting; mkEvent 2 "X" "M" "D" 2] 3)
      = Return (failed 500 msg,
                mkDB [Sample.alice; Sample.bob]
                  [Sample.meeting; mkEvent 2 "X" "M" "D" 2] 3).
Proof.
  split; [exact sample_db1_wf|].
  apply (CreateEvent_twice_is_500 Sample.env0 Sample.env0
           (Sample.request (Decoded (Some (mkEvents "X" "D" "M"))) "" "bob")
           Sample.db1 (created "X") _ sample_db1_wf);
    reflexivity.
Defined.

(** ** UpdateEvent: renaming *)




Lemma update_event_keys db n m d id db' :
  update_event db n m d id = inr db' →
  ev_id <$> events db' = ev_id <$> events db
  ∧ ev_user_id <$> events db' = ev_user_id <$> events db
  ∧ users db' = users db
  ∧ auto_increment db' = auto_increment db.
Proof.
  unfold update_event.
  destruct (decide (Exists _ _)); [|by intros [= <-]].
  destruct (decide (fits n m d)); [|done].
  destruct (decide (Exists _ _)); [done|].
  intros [= <-]. simpl. rewrite <- !list_fmap_compose.
  split_and!; try done; apply list_fmap_ext; intros j r _; simpl;
    by destruct (decide _).
Qed.

(** UpdateEvent never adds, removes, reorders or re-owns a row, and never
    touches the users: whatever it returns, the ids and the owners of the
    events, in table order, are as before. *)
Theorem UpdateEvent_keeps_ids_and_owners env (c : Request decoded) db w db' :
  UpdateEvent env c db = Return (w, db') →
  ev_id <$> events db' = ev_id <$> events db
  ∧ ev_user_id <$> events db' = ev_user_id <$> events db
  ∧ users db' = users db
  ∧ auto_increment db' = auto_increment db.
Proof.
  unfold UpdateEvent, call.
  destruct (Body c) as [msg|newEvent]; [by intros [= <- <-]|].
  destruct (getUserID env c db) as [why|uid]; [done|]. simpl.
  destruct (fault env SiteQuery); [by intros [= <- <-]|].
  destruct (select_event _ _ _) as [[|msg]|[id oldEvent]];
    [by intros [= <- <-]|by intros [= <- <-]|].
  destruct newEvent as [newEvent|]; [|done].
  destruct (fault env SitePrepare); [by intros [= <- <-]|].
  destruct (fault env SiteExec); [by intros [= <- <-]|].
  destruct (update_event _ _ _ _ _) as [err|db''] eqn:Hupd;
    intros [= <- <-]; [done|].
  by eapply update_event_keys.
Qed.

Lemma UpdateEvent_keeps_ids_and_owners_witness :
  ev_id <$> events (with_events Sample.db1
                      [mkEvent 1 "Meeting" "sync" "2025-01-16" 1])
  = ev_id <$> events Sample.db1.
Proof.
  apply (UpdateEvent_keeps_ids_and_owners Sample.env0
           (Sample.request (Decoded (Some (mkEvents "" "2025-01-16" "")))
              "Meeting" "alice")
           Sample.db1 (updated 1)
           (with_events Sample.db1 [mkEvent 1 "Meeting" "sync" "2025-01-16" 1])
           eq_refl).
Defined.



(** ** Status codes *)

(** The status codes of the answers: CreateEvent answers 200, 400 or
    500, UpdateEvent 200, 400, 404 or 500, DeleteEvent 200, 404 or 500, login
    200, 400, 401 or 500 and signup 200, 400 or 500; CreateEvent and
    UpdateEvent answer 400 exactly when the body does not decode, before the
    identity is looked at. *)
Theorem status_codes_of_the_routes env :
  (∀ (c : Request decoded) db w db',
     CreateEvent env c db = Return (w, db') →
     StatusCode w ∈ [200; 400; 500]
     ∧ (StatusCode w = 400 ↔ ∃ msg, Body c = DecodeError msg))
  ∧ (∀ (c : Request decoded) db w db',
       UpdateEvent env c db = Return (w, db') →
       StatusCode w ∈ [200; 400; 404; 500]
       ∧ (StatusCode w = 400 ↔ ∃ msg, Body c = DecodeError msg))
  ∧ (∀ (c : Request unit) db w db',
       DeleteEvent env c db = Return (w, db') →
       StatusCode w ∈ [200; 404; 500])
  ∧ (∀ CompareHashAndPassword SignedString secretKey
       (c : Request (string + Credentials)) db,
       StatusCode (login CompareHashAndPassword SignedString secretKey env c db)
       ∈ [200; 400; 401; 500])
  ∧ (∀ GenerateFromPassword SignedString secretKey salt
       (c : Request (string + Credentials)) s,
       StatusCode (signup GenerateFromPassword SignedString secretKey salt
                     env c s).1
       ∈ [200; 400; 500]).
Proof.
  split_and!.
  - intros c db w db'. unfold CreateEvent, call.
    destruct (Body c) as [msg|event].
    { intros [= <- <-]. simpl. split; [set_solver|]. split; [by eauto|done]. }
    destruct (getUserID env c db) as [why|uid]; [done|]. simpl.
    destruct (fault env SitePrepare).
    { intros [= <- <-]. simpl. split; [set_solver|split; [done|by intros [? ?]]]. }
    destruct event as [event|]; [|done].
    destruct (fault env SiteExec).
    { intros [= <- <-]. simpl. split; [set_solver|split; [done|by intros [? ?]]]. }
    destruct (insert_event _ _ _ _ _); intros [= <- <-]; simpl;
      (split; [set_solver|split; [done|by intros [? ?]]]).
  - intros c db w db'. unfold UpdateEvent, call.
    destruct (Body c) as [msg|newEvent].
    { intros [= <- <-]. simpl. split; [set_solver|]. split; [by eauto|done]. }
    destruct (getUserID env c db) as [why|uid]; [done|]. simpl.
    destruct (fault env SiteQuery).
    { intros [= <- <-]. simpl. split; [set_solver|split; [done|by intros [? ?]]]. }
    destruct (select_event _ _ _) as [[|msg]|[id oldEvent]].
    { intros [= <- <-]. simpl. split; [set_solver|split; [done|by intros [? ?]]]. }
    { intros [= <- <-]. simpl. split; [set_solver|split; [done|by intros [? ?]]]. }
    destruct newEvent as [newEvent|]; [|done].
    destruct (fault env SitePrepare).
    { intros [= <- <-]. simpl. split; [set_solver|split; [done|by intros [? ?]]]. }
    destruct (fault env SiteExec).
    { intros [= <- <-]. simpl. split; [set_solver|split; [done|by intros [? ?]]]. }
    destruct (update_event _ _ _ _ _); intros [= <- <-]; simpl;
      (split; [set_solver|split; [done|by intros [? ?]]]).
  - intros c db w db'. unfold DeleteEvent, call, delete_event.
    destruct (getUserID env c db) as [why|uid]; [done|]. simpl.
    destruct (fault env SitePrepare); [intros [= <- <-]; simpl; set_solver|].
    destruct (fault env SiteExec); [intros [= <- <-]; simpl; set_solver|].
    destruct (fault env SiteRowsAffected);
      [intros [= <- <-]; simpl; set_solver|].
    destruct (decide _); intros [= <- <-]; simpl; set_solver.
  - intros CompareHashAndPassword SignedString secretKey c db.
    unfold login, call, jwtSigner.
    destruct (Body c) as [e|creds]; [simpl; set_solver|].
    destruct (fault env SiteQuery); [simpl; set_solver|].
    destruct (select_user_password _ _) as [[|msg]|[userID storedPassword]];
      [simpl; set_solver|simpl; set_solver|].
    destruct (CompareHashAndPassword _ _); [simpl; set_solver|].
    destruct (SignedString _ _); simpl; set_solver.
  - intros GenerateFromPassword SignedString secretKey salt c s.
    unfold signup, call, jwtSigner.
    destruct (Body c) as [e|creds]; [simpl; set_solver|].
    destruct (GenerateFromPassword _ _); [simpl; set_solver|].
    destruct (fault env SitePrepare); [simpl; set_solver|].
    destruct (fault env SiteExec); [simpl; set_solver|].
    destruct (insert_user _ _ _); [simpl; set_solver|].
    destruct (SignedString _ _); simpl; set_solver.
Qed.

(** ** DeleteEvent, twice *)

(** DeleteEvent twice: once a DeleteEvent has run its DELETE, the same
    request by the same identity, with no driver failure, is answered 404
    "Record not found" and leaves the store as it is. *)
Theorem DeleteEvent_twice_is_404 {B} env env' (c : Request B) db uid w db' :
  getUserID env c db = Return uid →
  fault env SitePrepare = None →
  fault env SiteExec = None →
  DeleteEvent env c db = Return (w, db') →
  getUserID env' c db' = Return uid →
  fault env' SitePrepare = None →
  fault env' SiteExec = None →
  fault env' SiteRowsAffected = None →
  DeleteEvent env' c db' = Return (failed 404 "Record not found", db').
Proof.
  intros Huid Hp He Hrun Huid' Hp' He' Hr'.
  assert (db' = (delete_event db (Params_name c) uid).2) as ->.
  { revert Hrun. unfold DeleteEvent, call. rewrite Huid.
    unfold mbind, outcome_bind. rewrite Hp, He.
    destruct (delete_event db (Params_name c) uid) as [rows db''].
    destruct (fault env SiteRowsAffected); [by intros [= <- <-]|].
    destruct (decide _); by intros [= <- <-]. }
  rewrite (DeleteEvent_healthy _ _ _ _ Huid' Hp' He' Hr').
  assert (¬ Exists (scoped (Params_name c) uid)
            (events (delete_event db (Params_name c) uid).2)) as Hno.
  { apply select_event_absent, select_after_delete. }
  rewrite decide_False by done. f_equal. f_equal.
  rewrite filter_all; [apply with_events_same|].
  by apply not_Exists_Forall; [apply _|].
Qed.

Lemma DeleteEvent_twice_is_404_witness :
  DeleteEvent Sample.env0 (Sample.request () "Meeting" "alice")
    (with_events Sample.db1 [])
  = Return (failed 404 "Record not found", with_events Sample.db1 []).
Proof.
  apply (DeleteEvent_twice_is_404 Sample.env0 Sample.env0
           (Sample.request () "Meeting" "alice") Sample.db1 1
           (deleted "Meeting") (with_events Sample.db1 []));
    reflexivity.
Defined.

(** ** Panics *)

(** When the event handlers panic: GetEvent and DeleteEvent only when
    the identity resolver does; CreateEvent, for a body that decodes, when the
    resolver does or when the body is the JSON literal null and the statement
    was prepared; UpdateEvent, for a body that decodes, when the resolver does
    or when the body is null and the scoped row was read.  A body that does
    not decode is answered before anything can panic. *)
Theorem event_handlers_panic_only env (c : Request decoded) db :
  let no_identity := ∃ why, getUserID env c db = Panic why in
  ((∃ why, GetEvent env c db = Panic why) ↔ no_identity)
  ∧ ((∃ why, DeleteEvent env c db = Panic why) ↔ no_identity)
  ∧ ((∃ why, CreateEvent env c db = Panic why) ↔
     ∃ event, Body c = Decoded event
       ∧ (no_identity ∨ (event = None ∧ fault env SitePrepare = None)))
  ∧ ((∃ why, UpdateEvent env c db = Panic why) ↔
     ∃ newEvent, Body c = Decoded newEvent
       ∧ (no_identity
          ∨ (newEvent = None
             ∧ fault env SiteQuery = None
             ∧ ∃ uid id oldEvent,
                 getUserID env c db = Return uid
                 ∧ select_event db (Params_name c) uid = inr (id, oldEvent)))).
Proof.
  intros no_identity. unfold no_identity. split_and!.
  - unfold GetEvent, call.
    destruct (getUserID env c db) as [why|uid]; simpl; [by split; eauto|].
    destruct (fault env SiteQuery); [by split; intros [? ?]|].
    destruct (select_event _ _ _) as [err|[id event]]; by split; intros [? ?].
  - unfold DeleteEvent, call, delete_event.
    destruct (getUserID env c db) as [why|uid]; simpl; [by split; eauto|].
    destruct (fault env SitePrepare); [by split; intros [? ?]|].
    destruct (fault env SiteExec); [by split; intros [? ?]|].
    destruct (fault env SiteRowsAffected); [by split; intros [? ?]|].
    destruct (decide _); by split; intros [? ?].
  - unfold CreateEvent, call.
    destruct (Body c) as [msg|event]; [by split; [intros [? ?]|intros (? & ? & _)]|].
    destruct (getUserID env c db) as [why|uid]; simpl; [by split; eauto 6|].
    destruct (fault env SitePrepare) as [msg|].
    { split; [by intros [? ?]|].
      by intros (event' & _ & [[? ?]|[_ ?]]). }
    destruct event as [event|].
    + split.
      * destruct (fault env SiteExec); [by intros [? ?]|].
        destruct (insert_event _ _ _ _ _); by intros [? ?].
      * by intros (event' & [= <-] & [[? ?]|[? _]]).
    + split; [|by eauto]. intros _. exists None. by eauto.
  - unfold UpdateEvent, call.
    destruct (Body c) as [msg|newEvent]; [by split; [intros [? ?]|intros (? & ? & _)]|].
    destruct (getUserID env c db) as [why|uid]; simpl; [by split; eauto 6|].
    destruct (fault env SiteQuery) as [msg|].
    { split; [by intros [? ?]|].
      by intros (e' & _ & [[? ?]|(_ & ? & _)]). }
    destruct (select_event _ _ _) as [[|msg]|[id oldEvent]] eqn:Hsel.
    { split; [by intros [? ?]|].
      intros (e' & _ & [[? ?]|(_ & _ & ? & ? & ? & [= <-] & ?)]);
        [done|congruence]. }
    { split; [by intros [? ?]|].
      intros (e' & _ & [[? ?]|(_ & _ & ? & ? & ? & [= <-] & ?)]);
        [done|congruence]. }
    destruct newEvent as [newEvent|].
    + split.
      * destruct (fault env SitePrepare); [by intros [? ?]|].
        destruct (fault env SiteExec); [by intros [? ?]|].
        destruct (update_event _ _ _ _ _); by intros [? ?].
      * by intros (e' & [= <-] & [[? ?]|[? _]]).
    + split; [|by eauto]. intros _. exists None.
      split; [done|]. right. split_and!; try done. by exists uid, id, oldEvent.
Qed.
